(** * Developer-activity fetcher and mock-data simulator

    A shallow embedding of [src/cpuad-updater/fetch_developer_activity.py]
    and [src/cpuad-updater/generate_mock_data.py].

    - Python [float]s are binary64 primitive floats; [int]s are [Z].
    - A [dict] with string keys is a [gmap string pyval].
    - Code that can raise, loop or call the outside world lives in a small
      state-and-exception monad [M]; a [while True] loop takes fuel.
    - The hosting API and the random generator are interfaces (type
      classes): every theorem holds for all their implementations. *)

From Stdlib Require Import ZArith Floats Lia Bool List Ascii String.
From stdpp Require Import gmap strings list pretty.

Set Warnings "-inexact-float,-register-all".
Local Open Scope Z_scope.

(** ** Exceptions, outcomes and the monad *)

Inductive exn :=
| TypeError | ValueError | AttributeError | KeyError | IndexError
| ZeroDivisionError | OverflowError | OSError.

Inductive outcome (A : Type) :=
| Ret (a : A)          (* normal completion *)
| Raise (e : exn)      (* a Python exception propagates *)
| Timeout.             (* the fuel of an unbounded loop ran out *)
Arguments Ret {A} a.
Arguments Raise {A} e.
Arguments Timeout {A}.

Definition M (S A : Type) : Type := S -> outcome A * S.

Definition ret {S A} (a : A) : M S A := fun s => (Ret a, s).
Definition raise {S A} (e : exn) : M S A := fun s => (Raise e, s).
Definition timeout {S A} : M S A := fun s => (Timeout, s).
Definition bind {S A B} (m : M S A) (k : A -> M S B) : M S B :=
  fun s => match m s with
           | (Ret a, s') => k a s'
           | (Raise e, s') => (Raise e, s')
           | (Timeout, s') => (Timeout, s')
           end.

(** [try: m except Exception: h] -- the handler sees the state the body
    left behind; running out of fuel is not an exception. *)
Definition try_except {S A} (m : M S A) (h : exn -> M S A) : M S A :=
  fun s => match m s with
           | (Raise e, s') => h e s'
           | r => r
           end.

Declare Scope py_scope.
Delimit Scope py_scope with py.
Notation "x <- m ;; k" := (bind m (fun x => k))
  (at level 100, m at next level, right associativity) : py_scope.
Local Open Scope py_scope.

(** Pure code returns or raises; it cannot run out of fuel. *)
Inductive result (A : Type) :=
| Ok (a : A)
| Err (e : exn).
Arguments Ok {A} a.
Arguments Err {A} e.

Definition obind {A B} (o : result A) (k : A -> result B) : result B :=
  match o with
  | Ok a => k a
  | Err e => Err e
  end.

Definition lift {S A} (o : result A) : M S A :=
  fun s => match o with
           | Ok a => (Ret a, s)
           | Err e => (Raise e, s)
           end.

(** ** Python values *)

Inductive pyval :=
| VNone
| VBool (b : bool)
| VInt (z : Z)
| VFloat (f : float)
| VStr (s : string)
| VList (l : list pyval)
| VDict (kv : list (string * pyval)).

(** Truth value testing ([if x], [not x]); NaN and non-zero floats are true. *)
Definition truthy (v : pyval) : bool :=
  match v with
  | VNone => false
  | VBool b => b
  | VInt z => negb (z =? 0)
  | VFloat f => negb (PrimFloat.eqb f 0%float)
  | VStr s => negb (String.eqb s "")
  | VList l => match l with [] => false | _ => true end
  | VDict kv => match kv with [] => false | _ => true end
  end.

(** [d.get(k)] on a decoded JSON object, given by its items. *)
Fixpoint assoc_get (k : string) (kv : list (string * pyval)) : option pyval :=
  match kv with
  | [] => None
  | (k', v) :: rest => if String.eqb k k' then Some v else assoc_get k rest
  end.

(** [v.get(k, dflt)]: only a dict has the method. *)
Definition py_get (v : pyval) (k : string) (dflt : pyval) : result pyval :=
  match v with
  | VDict kv => Ok (default dflt (assoc_get k kv))
  | _ => Err AttributeError
  end.

(** ** Numbers *)

Module PyNum.

(** [float(z)]: nearest binary64, ties to even; too large an integer
    raises. *)
Definition float_of_int (z : Z) : result float :=
  let f := SF2Prim (binary_normalize prec emax z 0 false) in
  if is_infinity f then Err OverflowError else Ok f.

(** [int(f)]: truncation towards zero. *)
Definition int_of_float (f : float) : result Z :=
  match Prim2SF f with
  | S754_zero _ => Ok 0
  | S754_finite s m e =>
      let a := if 0 <=? e then Zpos m * 2 ^ e else Zpos m / 2 ^ (- e) in
      Ok (if s then - a else a)
  | S754_infinity _ => Err OverflowError
  | S754_nan => Err ValueError
  end.

(** [a / b] on two integers: the correctly rounded quotient. *)
Definition int_truediv (a b : Z) : result float :=
  match a, b with
  | _, Z0 => Err ZeroDivisionError
  | Z0, _ => Ok (if b <? 0 then (-0)%float else 0%float)
  | _, _ =>
      let q := SFdiv prec emax
                 (S754_finite (a <? 0) (Z.to_pos (Z.abs a)) 0)
                 (S754_finite (b <? 0) (Z.to_pos (Z.abs b)) 0) in
      match q with
      | S754_infinity _ => Err OverflowError
      | _ => Ok (SF2Prim q)
      end
  end.

(** The integer nearest to [a * 2^e], ties to even. *)
Definition round_half_even (a e : Z) : Z :=
  if 0 <=? e then a * 2 ^ e
  else
    let d := 2 ^ (- e) in
    let q := a / d in
    match 2 * (a mod d) ?= d with
    | Lt => q
    | Gt => q + 1
    | Eq => if Z.even q then q else q + 1
    end.

(** [round(x, 2)] on a float: the decimal with two digits nearest to the
    exact value of [x] (ties to even), then the binary64 nearest to that
    decimal. *)
Definition round2 (x : float) : float :=
  match Prim2SF x with
  | S754_finite s m e =>
      match round_half_even (Zpos m * 100) e with
      | Zpos n =>
          SF2Prim (SFdiv prec emax (S754_finite s n 0) (S754_finite false 100 0))
      | _ => if s then (-0)%float else 0%float
      end
  | _ => x
  end.

(** [min(a, b)] returns [a] unless [b < a]. *)
Definition fmin (a b : float) : float := if PrimFloat.ltb b a then b else a.

(** [n * x] with [n] an [int] and [x] a [float]. *)
Definition int_mul_float (n : Z) (x : float) : result float :=
  obind (float_of_int n) (fun nf => Ok (nf * x)%float).

End PyNum.

(** The value of a number in arithmetic: [bool] is a subclass of [int]. *)
Inductive number := NInt (z : Z) | NFloat (f : float).

Definition as_number (v : pyval) : option number :=
  match v with
  | VBool b => Some (NInt (Z.b2z b))
  | VInt z => Some (NInt z)
  | VFloat f => Some (NFloat f)
  | _ => None
  end.

(** [a + b]. *)
Definition py_add (a b : pyval) : result pyval :=
  match as_number a, as_number b with
  | Some (NInt x), Some (NInt y) => Ok (VInt (x + y))
  | Some (NInt x), Some (NFloat g) =>
      obind (PyNum.float_of_int x) (fun f => Ok (VFloat (f + g)))
  | Some (NFloat f), Some (NInt y) =>
      obind (PyNum.float_of_int y) (fun g => Ok (VFloat (f + g)))
  | Some (NFloat f), Some (NFloat g) => Ok (VFloat (f + g))
  | _, _ =>
      match a, b with
      | VStr s, VStr t => Ok (VStr (s ++ t))
      | VList l, VList k => Ok (VList (l ++ k))
      | _, _ => Err TypeError
      end
  end.

(** [a / n] with [n] an [int]. *)
Definition py_truediv (a : pyval) (n : Z) : result float :=
  match as_number a with
  | Some (NInt x) => PyNum.int_truediv x n
  | Some (NFloat f) =>
      if n =? 0 then Err ZeroDivisionError
      else obind (PyNum.float_of_int n) (fun g => Ok (f / g)%float)
  | None => Err TypeError
  end.

(** ** Calendar dates

    A [datetime.date] is its proleptic Gregorian ordinal
    ([date.toordinal()]: day 1 is 0001-01-01, a Monday). *)

Module PyDate.

Definition date := Z.

Definition MINORD : Z := 1.          (* date.min *)
Definition MAXORD : Z := 3652059.    (* date.max, 9999-12-31 *)

Definition valid (d : date) : bool := (MINORD <=? d) && (d <=? MAXORD).

Definition DAYS_BEFORE_MONTH : list Z :=
  [0; 0; 31; 59; 90; 120; 151; 181; 212; 243; 273; 304; 334].
Definition DAYS_IN_MONTH : list Z :=
  [0; 31; 28; 31; 30; 31; 30; 31; 31; 30; 31; 30; 31].

(** (year, month, day) of an ordinal, the algorithm of [datetime]. *)
Definition ord2ymd (ordinal : Z) : Z * Z * Z :=
  let n := ordinal - 1 in
  let n400 := n / 146097 in
  let n := n mod 146097 in
  let year := n400 * 400 + 1 in
  let n100 := n / 36524 in
  let n := n mod 36524 in
  let n4 := n / 1461 in
  let n := n mod 1461 in
  let n1 := n / 365 in
  let n := n mod 365 in
  let year := year + n100 * 100 + n4 * 4 + n1 in
  if (n1 =? 4) || (n100 =? 4) then (year - 1, 12, 31)
  else
    let leapyear := (n1 =? 3) && (negb (n4 =? 24) || (n100 =? 3)) in
    let month := Z.shiftr (n + 50) 5 in
    let preceding :=
      nth (Z.to_nat month) DAYS_BEFORE_MONTH 0
      + Z.b2z ((2 <? month) && leapyear) in
    if n <? preceding then
      let month := month - 1 in
      let preceding :=
        preceding - (nth (Z.to_nat month) DAYS_IN_MONTH 0
                     + Z.b2z ((month =? 2) && leapyear)) in
      (year, month, n - preceding + 1)
    else (year, month, n - preceding + 1).

Definition pad2 (v : Z) : string :=
  if v <? 10 then "0" +:+ pretty v else pretty v.

(** [d.strftime("%Y-%m-%d")]; the year is printed as the C library of the
    deployment image prints it, without padding (four digits from year
    1000 on). *)
Definition strftime (d : date) : string :=
  let '(y, m, dd) := ord2ymd d in
  pretty y +:+ "-" +:+ pad2 m +:+ "-" +:+ pad2 dd.

(** [d.weekday()]: Monday is 0. *)
Definition weekday (d : date) : Z := (d + 6) mod 7.

(** [(a - b).days]. *)
Definition days_between (a b : date) : Z := a - b.

(** [d - timedelta(days=n)]: the delta itself and the resulting date must
    both be representable. *)
Definition sub_days (d : date) (n : Z) : result date :=
  if 999999999 <? Z.abs n then Err OverflowError
  else if valid (d - n) then Ok (d - n)
  else Err OverflowError.

(** [d + timedelta(days=n)]. *)
Definition add_days (d : date) (n : Z) : result date :=
  if 999999999 <? Z.abs n then Err OverflowError
  else if valid (d + n) then Ok (d + n)
  else Err OverflowError.

(** The ordinal of a calendar day, the algorithm of [datetime]. *)
Definition is_leap (year : Z) : bool :=
  (year mod 4 =? 0) && (negb (year mod 100 =? 0) || (year mod 400 =? 0)).
Definition ymd2ord (year month day : Z) : Z :=
  let y := year - 1 in
  (y * 365 + y / 4 - y / 100 + y / 400)
  + (nth (Z.to_nat month) DAYS_BEFORE_MONTH 0 + Z.b2z ((2 <? month) && is_leap year))
  + day.

(** Reading a day string of the form year-month-day back. *)
Fixpoint parse_digits (s : string) (acc : Z) : option Z :=
  match s with
  | EmptyString => Some acc
  | String c rest =>
      let d := Z.of_N (N_of_ascii c) - 48 in
      if (0 <=? d) && (d <=? 9) then parse_digits rest (10 * acc + d) else None
  end.
Fixpoint split_dash (s : string) : list string :=
  match s with
  | EmptyString => [EmptyString]
  | String c rest =>
      if Ascii.eqb c "-" then EmptyString :: split_dash rest
      else match split_dash rest with
           | w :: ws => String c w :: ws
           | [] => [String c EmptyString]
           end
  end.
Definition parse_day (s : string) : option date :=
  match split_dash s with
  | [y; m; d] =>
      match parse_digits y 0, parse_digits m 0, parse_digits d 0 with
      | Some y, Some m, Some d => Some (ymd2ord y m d)
      | _, _, _ => None
      end
  | _ => None
  end.

(** The number of days from the day [start] to the day [stop], both given
    as strings. *)
Definition days_between_strings (stop start : string) : option Z :=
  match parse_day stop, parse_day start with
  | Some a, Some b => Some (days_between a b)
  | _, _ => None
  end.

End PyDate.

(** ** SHA-256 ([hashlib.sha256]) on byte strings *)

Module Sha256.

Definition mask32 : Z := 0xFFFFFFFF.
Definition add32 (a b : Z) : Z := Z.land (a + b) mask32.
Definition rotr (n x : Z) : Z :=
  Z.lor (Z.shiftr x n) (Z.land (Z.shiftl x (32 - n)) mask32).
Definition not32 (x : Z) : Z := Z.lxor x mask32.

Definition Ch (x y z : Z) : Z := Z.lxor (Z.land x y) (Z.land (not32 x) z).
Definition Maj (x y z : Z) : Z :=
  Z.lxor (Z.lxor (Z.land x y) (Z.land x z)) (Z.land y z).
Definition Sigma0 (x : Z) : Z := Z.lxor (Z.lxor (rotr 2 x) (rotr 13 x)) (rotr 22 x).
Definition Sigma1 (x : Z) : Z := Z.lxor (Z.lxor (rotr 6 x) (rotr 11 x)) (rotr 25 x).
Definition sigma0 (x : Z) : Z := Z.lxor (Z.lxor (rotr 7 x) (rotr 18 x)) (Z.shiftr x 3).
Definition sigma1 (x : Z) : Z := Z.lxor (Z.lxor (rotr 17 x) (rotr 19 x)) (Z.shiftr x 10).

(** The largest [r] with [r ^ k <= n], for [n < 2 ^ (40 * k)]. *)
Definition iroot (k n : Z) : Z :=
  fold_left (fun r i => let c := r + 2 ^ i in if c ^ k <=? n then c else r)
            (rev (map Z.of_nat (seq 0 40))) 0.

Definition is_prime (n : Z) : bool :=
  forallb (fun d => negb (n mod d =? 0)) (map Z.of_nat (seq 2 (Z.to_nat n - 2))).

(** The first 64 primes. *)
Definition primes : list Z :=
  Eval vm_compute in filter (fun n => is_prime n) (map Z.of_nat (seq 2 310)).

(** Round constants: the first 32 bits of the fractional parts of the cube
    roots of the first 64 primes. *)
Definition K : list Z :=
  Eval vm_compute in map (fun p => Z.land (iroot 3 (p * 2 ^ 96)) mask32) primes.

(** Initial hash value: the same for the square roots of the first 8. *)
Definition H0 : list Z :=
  Eval vm_compute in
    map (fun p => Z.land (iroot 2 (p * 2 ^ 64)) mask32) (firstn 8 primes).

Definition be64 (n : Z) : list Z :=
  map (fun i => Z.land (Z.shiftr n (8 * i)) 0xFF) [7; 6; 5; 4; 3; 2; 1; 0].

(** Message padding: a one bit, zeros up to 56 mod 64, the bit length. *)
Definition pad (msg : list Z) : list Z :=
  let len := Z.of_nat (length msg) in
  msg ++ [0x80] ++ repeat 0 (Z.to_nat ((55 - len) mod 64)) ++ be64 (8 * len).

Fixpoint words_of_bytes (bs : list Z) : list Z :=
  match bs with
  | a :: b :: c :: d :: rest =>
      Z.lor (Z.lor (Z.shiftl a 24) (Z.shiftl b 16)) (Z.lor (Z.shiftl c 8) d)
      :: words_of_bytes rest
  | _ => []
  end.

Fixpoint chunks16 (n : nat) (ws : list Z) : list (list Z) :=
  match n, ws with
  | S n', _ :: _ => firstn 16 ws :: chunks16 n' (skipn 16 ws)
  | _, _ => []
  end.

(** Message schedule: [n] further words after the ones in [w]. *)
Fixpoint extend (n : nat) (w : list Z) : list Z :=
  match n with
  | O => w
  | S n' =>
      let t := length w in
      let get i := nth (t - i) w 0 in
      extend n' (w ++ [add32 (add32 (sigma1 (get 2%nat)) (get 7%nat))
                             (add32 (sigma0 (get 15%nat)) (get 16%nat))])
  end.

Record state := State { sa : Z; sb : Z; sc : Z; sd : Z; se : Z; sf : Z; sg : Z; sh : Z }.

Definition round (s : state) (kw : Z * Z) : state :=
  let '(k, w) := kw in
  let t1 := add32 (add32 (add32 (sh s) (Sigma1 (se s)))
                         (add32 (Ch (se s) (sf s) (sg s)) k)) w in
  let t2 := add32 (Sigma0 (sa s)) (Maj (sa s) (sb s) (sc s)) in
  State (add32 t1 t2) (sa s) (sb s) (sc s) (add32 (sd s) t1) (se s) (sf s) (sg s).

Definition compress (s : state) (block : list Z) : state :=
  let r := fold_left round (combine K (extend 48 block)) s in
  State (add32 (sa s) (sa r)) (add32 (sb s) (sb r)) (add32 (sc s) (sc r))
        (add32 (sd s) (sd r)) (add32 (se s) (se r)) (add32 (sf s) (sf r))
        (add32 (sg s) (sg r)) (add32 (sh s) (sh r)).

Definition init : state :=
  let h i := nth i H0 0 in
  State (h 0%nat) (h 1%nat) (h 2%nat) (h 3%nat) (h 4%nat) (h 5%nat) (h 6%nat) (h 7%nat).

Definition digest_words (msg : list Z) : list Z :=
  let ws := words_of_bytes (pad msg) in
  let s := fold_left compress (chunks16 (length ws) ws) init in
  [sa s; sb s; sc s; sd s; se s; sf s; sg s; sh s].

Definition hex_digit (n : Z) : ascii :=
  nth (Z.to_nat n)
    ["0"; "1"; "2"; "3"; "4"; "5"; "6"; "7"; "8"; "9";
     "a"; "b"; "c"; "d"; "e"; "f"]%char "0"%char.

Definition hex_word (w : Z) : string :=
  string_of_list_ascii
    (map (fun i => hex_digit (Z.land (Z.shiftr w (4 * i)) 0xF))
         [7; 6; 5; 4; 3; 2; 1; 0]).

(** [str.encode()]: a [str] is kept as its UTF-8 bytes. *)
Definition encode (s : string) : list Z :=
  map (fun c => Z.of_N (N_of_ascii c)) (list_ascii_of_string s).

(** [hashlib.sha256(bytes).hexdigest()]. *)
Definition hexdigest (msg : list Z) : string :=
  fold_right String.append EmptyString (map hex_word (digest_words msg)).

End Sha256.

Example sha256_abc :
  Sha256.hexdigest (Sha256.encode "abc")
  = "ba7816bf8f01cfea414140de5dae2223b00361a396177a9cb410ff61f20015ad"%string.
Proof. vm_compute. reflexivity. Qed.


(** ** The identity hash (the same function in both source files) *)

(** [repr] of floats and containers is left to the interpreter. *)
Class Repr := repr_opaque : pyval -> string.

(** [str(v)]. *)
Definition py_str `{Repr} (v : pyval) : string :=
  match v with
  | VNone => "None"
  | VBool true => "True"
  | VBool false => "False"
  | VInt z => pretty z
  | VStr s => s
  | _ => repr_opaque v
  end.

Abbreviation record := (gmap string pyval).

Definition key_element `{Repr} (data : record) (key_property : string) : string :=
  match data !! key_property with
  | Some VNone | None => ""
  | Some value => py_str value
  end.

Definition generate_unique_hash `{Repr} (data : record) (key_properties : list string)
  : string :=
  let key_elements := map (key_element data) key_properties in
  let key_string := String.concat "-" key_elements in
  Sha256.hexdigest (Sha256.encode key_string).

(** The hash as the spec words it: SHA-256 of the UTF-8 bytes of the key
    values joined by the separator, an absent or null value giving the
    empty string. *)
Definition spec_identity_hash (values : list (option string)) : string :=
  Sha256.hexdigest
    (Sha256.encode (String.concat "-" (map (default ""%string) values))).

(** ** generate_mock_data.py *)

Module MockData.

Definition ORGANIZATION_SLUG : string := "acme-corp".
Definition SLUG_TYPE : string := "Organization".
Definition NUM_DEVELOPERS : Z := 25.
Definition NUM_TEAMS : Z := 5.
Definition DAYS_OF_DATA : Z := 150.
Definition COPILOT_ADOPTION_DAYS_AGO : Z := 70.

Record persona := Persona {
  base_commits : Z * Z;
  base_prs : Z * Z;
  base_reviews : Z * Z;
  copilot_multiplier : float;
  copilot_adoption_rate : float;
  acceptance_rate_range : option (float * float);   (* read with [.get] *)
  features : list string
}.

Definition power_user : persona :=
  Persona (3, 7) (1, 2) (2, 4) 1.30 0.92 (Some (0.30, 0.40)%float)
    ["code_completion"; "chat_panel_ask_mode"; "chat_panel_agent_mode"; "inline_chat"]%string.
Definition regular : persona :=
  Persona (2, 5) (0, 2) (1, 3) 1.20 0.75 (Some (0.25, 0.32)%float)
    ["code_completion"; "chat_panel_ask_mode"]%string.
Definition occasional : persona :=
  Persona (1, 3) (0, 1) (1, 2) 1.10 0.45 (Some (0.20, 0.28)%float)
    ["code_completion"]%string.
Definition skeptic : persona :=
  Persona (1, 3) (0, 1) (1, 2) 1.05 0.25 (Some (0.15, 0.22)%float)
    ["code_completion"]%string.

Definition DEVELOPER_PERSONAS : list (string * persona) :=
  [("power_user", power_user); ("regular", regular);
   ("occasional", occasional); ("skeptic", skeptic)]%string.

Record team_config := Team {
  team_name : string;
  team_repos : list string;
  team_languages : list string
}.

Definition TEAMS : list team_config :=
  [Team "platform" ["api-gateway"; "auth-service"; "config-manager"] ["go"; "python"];
   Team "frontend" ["web-app"; "mobile-app"; "design-system"]
        ["typescript"; "javascript"; "css"];
   Team "backend" ["order-service"; "inventory-service"; "payment-service"]
        ["java"; "kotlin"];
   Team "data" ["analytics-pipeline"; "ml-models"; "data-warehouse"] ["python"; "sql"];
   Team "devops" ["infrastructure"; "ci-cd-pipelines"; "monitoring"]
        ["terraform"; "yaml"; "python"]]%string.

Record ide_config := Ide {
  ide_name : string;
  ide_weight : float;
  plugin_version : string
}.

Definition IDES : list ide_config :=
  [Ide "vscode" 0.60 "1.234.0"; Ide "jetbrains" 0.25 "1.5.12.6534";
   Ide "neovim" 0.10 "0.3.0"; Ide "visual-studio" 0.05 "17.12.0"]%string.

Definition MODELS : list string :=
  ["gpt-4o"; "gpt-4o-mini"; "claude-3.5-sonnet"; "o1-preview"]%string.

Record developer := Developer {
  user_login : string;
  user_id : Z;
  team : string;
  repos : list string;
  languages : list string;
  persona_name : string;
  persona_config : persona;
  primary_ide : ide_config;
  seniority : string
}.

(** The outside world of the simulator: the [random] module's generator
    and the wall clock. *)
Class SimWorld (G : Type) := {
  random_random : G -> float * G;          (* random.random() *)
  random_randbelow : Z -> G -> Z * G;      (* Random._randbelow(n) *)
  now_isoformat : G -> string;             (* datetime.now().isoformat() *)
  (* the documented ranges of the two generators *)
  random_random_range : forall g,
    PrimFloat.leb 0 (fst (random_random g)) = true
    /\ PrimFloat.ltb (fst (random_random g)) 1 = true;
  random_randbelow_range : forall n g,
    0 < n -> 0 <= fst (random_randbelow n g) < n
}.

(** The calendar of the simulator: the date of [datetime.now()]. *)
Class Calendar (G : Type) := today_date : G -> PyDate.date.

Section Simulator.
Context {G : Type} `{SimWorld G} `{Repr}.

Definition random : M G float := fun g => let '(x, g') := random_random g in (Ret x, g').

(** [random.randint(a, b)] is [randrange(a, b + 1)]. *)
Definition randint (a b : Z) : M G Z :=
  let width := b + 1 - a in
  if 0 <? width then
    fun g => let '(x, g') := random_randbelow width g in (Ret (a + x), g')
  else raise ValueError.

(** [random.uniform(a, b)] is [a + (b - a) * random()]. *)
Definition uniform (a b : float) : M G float :=
  r <- random ;; ret (a + (b - a) * r)%float.

(** [random.choice(seq)]. *)
Definition choice {A} (seq : list A) : M G A :=
  match seq with
  | [] => raise IndexError
  | _ =>
      fun g =>
        let '(i, g') := random_randbelow (Z.of_nat (length seq)) g in
        (match seq !! Z.to_nat i with Some x => Ret x | None => Raise IndexError end, g')
  end.

(** [int(n * x)], [int(n * x * y)] for an int [n] and floats [x], [y]. *)
Definition int_scaled (n : Z) (x : float) : result Z :=
  obind (PyNum.int_mul_float n x) PyNum.int_of_float.
Definition int_scaled2 (n : Z) (x y : float) : result Z :=
  obind (PyNum.int_mul_float n x) (fun nx => PyNum.int_of_float (nx * y)).

Definition is_workday (date : PyDate.date) : bool := PyDate.weekday date <? 5.

Definition get_activity_modifier (date copilot_adoption_date : PyDate.date) : float :=
  if date <? copilot_adoption_date then 1.0%float
  else
    let days_since_adoption := PyDate.days_between date copilot_adoption_date in
    if days_since_adoption <? 7 then 0.98%float
    else if days_since_adoption <? 14 then 1.02%float
    else if days_since_adoption <? 21 then 1.08%float
    else if days_since_adoption <? 28 then 1.15%float
    else if days_since_adoption <? 35 then 1.20%float
    else if days_since_adoption <? 42 then 1.25%float
    else if days_since_adoption <? 56 then 1.28%float
    else 1.30%float.

(** [x in xs] on a list of strings, [sub in s] on strings. *)
Definition str_in (x : string) (xs : list string) : bool := existsb (String.eqb x) xs.
Definition contains (sub s : string) : bool :=
  match String.index 0 sub s with Some _ => true | None => false end.

Fixpoint mapM {A B} (f : A -> M G B) (l : list A) : M G (list B) :=
  match l with
  | [] => ret []
  | x :: xs => y <- f x ;; ys <- mapM f xs ;; ret (y :: ys)
  end.

(** The counters of one usage record, shared by the record and its slices. *)
Record usage_totals := UsageTotals {
  interactions : Z;
  code_gen : Z;
  code_acceptance : Z;
  loc_suggested : Z;
  loc_added : Z
}.

(** The six code counters of a breakdown entry, each [int(total * share)]. *)
Definition slice_counts (t : usage_totals) (share : float)
  : result (list (string * pyval)) :=
  obind (int_scaled (code_gen t) share) (fun g =>
  obind (int_scaled (code_acceptance t) share) (fun a =>
  obind (int_scaled (loc_suggested t) share) (fun ls =>
  obind (int_scaled2 (loc_suggested t) 0.1 share) (fun ld =>
  obind (int_scaled (loc_added t) share) (fun la =>
  obind (int_scaled2 (loc_added t) 0.1 share) (fun lad =>
  Ok [("code_generation_activity_count", VInt g);
       ("code_acceptance_activity_count", VInt a);
       ("loc_suggested_to_add_sum", VInt ls);
       ("loc_suggested_to_delete_sum", VInt ld);
       ("loc_added_sum", VInt la);
       ("loc_deleted_sum", VInt lad)]%string)))))).

Definition zero_counts : list (string * pyval) :=
  [("code_generation_activity_count", VInt 0);
   ("code_acceptance_activity_count", VInt 0);
   ("loc_suggested_to_add_sum", VInt 0);
   ("loc_suggested_to_delete_sum", VInt 0);
   ("loc_added_sum", VInt 0);
   ("loc_deleted_sum", VInt 0)]%string.

(** [1.0 / n] for an int [n]. *)
Definition one_over (n : Z) : result float :=
  if n =? 0 then Err ZeroDivisionError
  else obind (PyNum.float_of_int n) (fun d => Ok (1.0 / d)%float).

Definition feature_entry (t : usage_totals) (available_features : list string)
    (feature : string) : result pyval :=
  obind (one_over (Z.of_nat (length available_features))) (fun share0 =>
  let feature_share := if String.eqb feature "code_completion" then 0.5%float else share0 in
  obind (int_scaled (interactions t) feature_share) (fun i =>
  obind (if contains "code" feature then slice_counts t feature_share
         else Ok zero_counts) (fun counts =>
  Ok (VDict ([("feature", VStr feature);
               ("user_initiated_interaction_count", VInt i)]%string ++ counts))))).

Definition language_model_entry (t : usage_totals) (dev : developer) (lang : string)
  : M G pyval :=
  model <- choice MODELS ;;
  lang_share <- lift (one_over (Z.of_nat (length (languages dev)))) ;;
  counts <- lift (slice_counts t lang_share) ;;
  ret (VDict ([("language", VStr lang); ("model", VStr model)]%string ++ counts)).

Definition language_feature_entry (t : usage_totals) (dev : developer)
    (lang feature : string) : result pyval :=
  obind (one_over (Z.of_nat (length (languages dev)) * 2)) (fun share =>
  obind (slice_counts t share) (fun counts =>
  Ok (VDict ([("language", VStr lang); ("feature", VStr feature)]%string ++ counts)))).

Fixpoint omap_list {A B} (f : A -> result B) (l : list A) : result (list B) :=
  match l with
  | [] => Ok []
  | x :: xs => obind (f x) (fun y => obind (omap_list f xs) (fun ys => Ok (y :: ys)))
  end.

Definition generate_copilot_metrics_for_day (dev : developer)
    (date copilot_adoption_date : PyDate.date) : M G (option record) :=
  let persona := persona_config dev in
  (* No Copilot metrics before adoption *)
  if date <? copilot_adoption_date then ret None else
  (* Check if developer uses Copilot today based on adoption rate *)
  r <- random ;;
  if PrimFloat.ltb (copilot_adoption_rate persona) r then ret None else
  (* Skip weekends with 90% probability *)
  skip <- (if is_workday date then ret false
           else r <- random ;; ret (PrimFloat.ltb 0.1 r)) ;;
  if skip : bool then ret None else
  let days_since_adoption := PyDate.days_between date copilot_adoption_date in
  (* Ramp up usage over time *)
  ratio <- lift (PyNum.int_truediv days_since_adoption 28) ;;
  let usage_multiplier := PyNum.fmin 1.0 (0.3 + ratio * 0.7)%float in
  n <- randint 20 60 ;;
  interactions <- lift (int_scaled n usage_multiplier) ;;
  n <- randint 30 80 ;;
  code_gen <- lift (int_scaled n usage_multiplier) ;;
  let acceptance_rate_range :=
    default (0.25, 0.32)%float (acceptance_rate_range persona) in
  acceptance_rate <- uniform (fst acceptance_rate_range) (snd acceptance_rate_range) ;;
  (* Acceptance rate improves slightly over time *)
  let acceptance_rate :=
    if 14 <? days_since_adoption then (acceptance_rate + 0.02)%float
    else acceptance_rate in
  let acceptance_rate :=
    if 28 <? days_since_adoption then (acceptance_rate + 0.02)%float
    else acceptance_rate in
  (* Cap acceptance rate at realistic maximum *)
  let acceptance_rate := PyNum.fmin acceptance_rate 0.45 in
  code_acceptance <- lift (int_scaled code_gen acceptance_rate) ;;
  (* Lines of code *)
  n <- randint 3 12 ;;
  let loc_suggested := code_gen * n in
  suggested_accepted <- lift (PyNum.int_mul_float loc_suggested acceptance_rate) ;;
  u <- uniform 0.8 1.0 ;;
  loc_added <- lift (PyNum.int_of_float (suggested_accepted * u)) ;;
  (* Feature usage *)
  used_agent <- (if str_in "chat_panel_agent_mode" (features persona)
                 then r <- random ;; ret (PrimFloat.ltb r 0.3) else ret false) ;;
  used_chat <- (if str_in "chat_panel_ask_mode" (features persona)
                then r <- random ;; ret (PrimFloat.ltb r 0.6) else ret false) ;;
  let t := UsageTotals interactions code_gen code_acceptance loc_suggested loc_added in
  loc_suggested_to_delete <- lift (int_scaled loc_suggested 0.1) ;;
  loc_deleted <- lift (int_scaled loc_added 0.1) ;;
  let top_counters : list (string * pyval) :=
    [("user_initiated_interaction_count", VInt interactions);
     ("code_generation_activity_count", VInt code_gen);
     ("code_acceptance_activity_count", VInt code_acceptance);
     ("loc_suggested_to_add_sum", VInt loc_suggested);
     ("loc_suggested_to_delete_sum", VInt loc_suggested_to_delete);
     ("loc_added_sum", VInt loc_added);
     ("loc_deleted_sum", VInt loc_deleted)]%string in
  (* Build totals by IDE *)
  let ide := primary_ide dev in
  let totals_by_ide := [VDict (("ide", VStr (ide_name ide))%string :: top_counters)] in
  (* Build totals by feature *)
  let available_features := features persona in
  totals_by_feature <-
    lift (omap_list (feature_entry t available_features) available_features) ;;
  (* Build totals by language/model *)
  totals_by_language_model <- mapM (language_model_entry t dev) (languages dev) ;;
  (* Build totals by language/feature: top 2 features per language *)
  totals_by_language_feature <-
    lift (omap_list
            (fun lf => language_feature_entry t dev (fst lf) (snd lf))
            (flat_map (fun lang => map (pair lang) (firstn 2 available_features))
                      (languages dev))) ;;
  let day_str := PyDate.strftime date in
  fun g =>
  let last_updated_at := now_isoformat g in
  (top_model <- choice MODELS ;;
   top_language <- lift (match languages dev with
                         | l :: _ => Ok l
                         | [] => Err IndexError
                         end) ;;
   let record : record :=
     list_to_map
       ([("day", VStr day_str);
         ("report_start_day", VStr day_str);
         ("report_end_day", VStr day_str);
         ("user_id", VInt (user_id dev));
         ("user_login", VStr (user_login dev));
         ("organization_slug", VStr ORGANIZATION_SLUG);
         ("slug_type", VStr SLUG_TYPE);
         ("last_updated_at", VStr last_updated_at);
         ("utc_offset", VStr "+00:00");
         ("user_initiated_interaction_count", VInt interactions);
         ("code_generation_activity_count", VInt code_gen);
         ("code_acceptance_activity_count", VInt code_acceptance);
         ("used_agent", VBool used_agent);
         ("used_chat", VBool used_chat);
         ("loc_suggested_to_add_sum", VInt loc_suggested);
         ("loc_suggested_to_delete_sum", VInt loc_suggested_to_delete);
         ("loc_added_sum", VInt loc_added);
         ("loc_deleted_sum", VInt loc_deleted);
         ("totals_by_ide", VList totals_by_ide);
         ("totals_by_feature", VList totals_by_feature);
         ("totals_by_language_model", VList totals_by_language_model);
         ("totals_by_language_feature", VList totals_by_language_feature);
         ("top_model", VStr top_model);
         ("top_language", VStr top_language);
         ("top_feature", VStr "code_completion")]%string) in
   let unique_hash :=
     generate_unique_hash record ["organization_slug"; "user_login"; "day"]%string in
   ret (Some (<["unique_hash"%string := VStr unique_hash]> record))) g.

(** [round(n / period_days, 2)]. *)
Definition per_day (n period_days : Z) : result float :=
  obind (PyNum.int_truediv n period_days) (fun q => Ok (PyNum.round2 q)).

(** The body of [generate_developer_activity_for_day] from the point where
    [modifier] has been computed. *)
Definition activity_record_with_modifier (modifier : float) (dev : developer)
    (date : PyDate.date) : M G (option record) :=
  let persona := persona_config dev in
  (* Base activity (with some randomness) *)
  base_commits <- randint (fst (base_commits persona)) (snd (base_commits persona)) ;;
  base_prs <- randint (fst (base_prs persona)) (snd (base_prs persona)) ;;
  base_reviews <- randint (fst (base_reviews persona)) (snd (base_reviews persona)) ;;
  (* Apply modifier for post-adoption period *)
  x <- lift (PyNum.int_mul_float base_commits modifier) ;;
  u <- uniform 0.8 1.2 ;;
  commits <- lift (PyNum.int_of_float (x * u)) ;;
  x <- lift (PyNum.int_mul_float base_prs modifier) ;;
  u <- uniform 0.7 1.3 ;;
  prs_opened <- lift (PyNum.int_of_float (x * u)) ;;
  x <- lift (PyNum.int_mul_float base_reviews modifier) ;;
  u <- uniform 0.8 1.2 ;;
  prs_reviewed <- lift (PyNum.int_of_float (x * u)) ;;
  (* Derived metrics *)
  u <- uniform 0.6 0.9 ;;
  prs_merged <- lift (int_scaled prs_opened u) ;;
  k <- randint 1 4 ;;
  let pr_comments := prs_reviewed * k in
  issues_opened <- randint 0 2 ;;
  issues_closed <- randint 0 (issues_opened + 1) ;;
  k <- randint 1 3 ;;
  let repos_contributed := Z.min (Z.of_nat (length (repos dev))) k in
  let total_contributions :=
    commits + prs_opened + prs_merged + prs_reviewed + issues_opened in
  let code_review_activity := prs_reviewed + pr_comments in
  let day_str := PyDate.strftime date in
  let period_days := 1 in
  fun g =>
  let last_updated_at := now_isoformat g in
  (issue_comments <- randint 0 (issues_opened * 2) ;;
   commits_per_day <- lift (per_day commits period_days) ;;
   prs_per_day <- lift (per_day prs_opened period_days) ;;
   reviews_per_day <- lift (per_day prs_reviewed period_days) ;;
   primary_language <- lift (match languages dev with
                             | l :: _ => Ok l
                             | [] => Err IndexError
                             end) ;;
   let record : record :=
     list_to_map
       ([("day", VStr day_str);
         ("report_start_day", VStr day_str);
         ("report_end_day", VStr day_str);
         ("period_days", VInt period_days);
         ("user_login", VStr (user_login dev));
         ("organization_slug", VStr ORGANIZATION_SLUG);
         ("slug_type", VStr SLUG_TYPE);
         ("last_updated_at", VStr last_updated_at);
         ("utc_offset", VStr "+00:00");
         ("commit_count", VInt commits);
         ("repos_contributed", VInt repos_contributed);
         ("prs_opened", VInt prs_opened);
         ("prs_merged", VInt prs_merged);
         ("prs_reviewed", VInt prs_reviewed);
         ("pr_comments", VInt pr_comments);
         ("prs_closed", VInt prs_merged);
         ("issues_opened", VInt issues_opened);
         ("issues_closed", VInt issues_closed);
         ("issue_comments", VInt issue_comments);
         ("total_contributions", VInt total_contributions);
         ("code_review_activity", VInt code_review_activity);
         ("commits_per_day", VFloat commits_per_day);
         ("prs_per_day", VFloat prs_per_day);
         ("reviews_per_day", VFloat reviews_per_day);
         ("team", VStr (team dev));
         ("primary_language", VStr primary_language);
         ("seniority", VStr (seniority dev))]%string) in
   let unique_hash :=
     generate_unique_hash record ["organization_slug"; "user_login"; "day"]%string in
   ret (Some (<["unique_hash"%string := VStr unique_hash]> record))) g.

(** The two early exits of [generate_developer_activity_for_day], then
    [body]: weekends are skipped with 85% probability, and 5% of the days
    are days off. *)
Definition unless_day_off (date : PyDate.date) (body : M G (option record))
  : M G (option record) :=
  skip <- (if is_workday date then ret false
           else r <- random ;; ret (PrimFloat.ltb 0.15 r)) ;;
  if skip : bool then ret None else
  r <- random ;;
  if PrimFloat.ltb r 0.05 then ret None else body.

Definition generate_developer_activity_for_day (dev : developer)
    (date copilot_adoption_date : PyDate.date) : M G (option record) :=
  unless_day_off date
    ((* Get productivity modifier based on Copilot adoption *)
     let modifier :=
       if copilot_adoption_date <=? date
       then (get_activity_modifier date copilot_adoption_date
             * copilot_multiplier (persona_config dev))%float
       else 1.0%float in
     activity_record_with_modifier modifier dev date).

(** *** The roster *)

Definition first_names : list string :=
  ["alex"; "jordan"; "taylor"; "casey"; "morgan"; "riley"; "quinn"; "avery";
   "jamie"; "drew"; "sam"; "chris"; "pat"; "blake"; "cameron"; "dakota";
   "skyler"; "reese"; "finley"; "hayden"; "emery"; "rowan"; "sage"; "phoenix";
   "river"]%string.

Definition last_names : list string :=
  ["chen"; "patel"; "garcia"; "kim"; "nguyen"; "smith"; "johnson"; "williams";
   "brown"; "jones"; "miller"; "davis"; "rodriguez"; "martinez"; "hernandez";
   "lopez"; "gonzalez"; "wilson"; "anderson"; "thomas"; "taylor"; "moore";
   "jackson"; "martin"; "lee"]%string.

(** [seq[i]] for an index that is not negative. *)
Definition py_index {A} (seq : list A) (i : Z) : result A :=
  match seq !! Z.to_nat i with
  | Some x => Ok x
  | None => Err IndexError
  end.

Definition generate_developer_name (index : Z) : result string :=
  obind (py_index first_names (index mod Z.of_nat (length first_names))) (fun first =>
  obind (py_index last_names (index mod Z.of_nat (length last_names))) (fun last =>
  Ok (first +:+ "-" +:+ last)%string)).

(** [itertools.accumulate(weights)]: the running sums, left to right. *)
Fixpoint accumulate_from (total : float) (weights : list float) : list float :=
  match weights with
  | [] => []
  | w :: ws => let total := (total + w)%float in total :: accumulate_from total ws
  end.

Definition accumulate (weights : list float) : list float :=
  match weights with
  | [] => []
  | w :: ws => w :: accumulate_from w ws
  end.

(** The loop of [bisect.bisect_right(a, x, lo, hi)].  Every turn shrinks
    [hi - lo], so [hi - lo] units of fuel see it through. *)
Fixpoint bisect_loop (fuel : nat) (a : list float) (x : float) (lo hi : nat)
  : result nat :=
  match fuel with
  | O => Ok lo
  | S fuel' =>
      if (lo <? hi)%nat then
        let mid := ((lo + hi) / 2)%nat in
        match a !! mid with
        | None => Err IndexError
        | Some a_mid =>
            if PrimFloat.ltb x a_mid then bisect_loop fuel' a x lo mid
            else bisect_loop fuel' a x (mid + 1) hi
        end
      else Ok lo
  end.

Definition bisect (a : list float) (x : float) (lo hi : nat) : result nat :=
  bisect_loop (hi - lo) a x lo hi.

Definition isfinite (x : float) : bool :=
  negb (PrimFloat.is_nan x || PrimFloat.is_infinity x).

(** [random.choices(population, weights=weights)[0]]. *)
Definition choices {A} (population : list A) (weights : list float) : M G A :=
  let n := length population in
  let cum_weights := accumulate weights in
  if negb (length cum_weights =? n)%nat then raise ValueError else
  match last cum_weights with
  | None => raise IndexError
  | Some c =>
      let total := (c + 0.0)%float in
      if PrimFloat.leb total 0 then raise ValueError else
      if negb (isfinite total) then raise ValueError else
      let hi := (n - 1)%nat in
      r <- random ;;
      i <- lift (bisect cum_weights (r * total) 0 hi) ;;
      match population !! i with
      | Some x => ret x
      | None => raise IndexError
      end
  end.

(** [DEVELOPER_PERSONAS[name]]. *)
Definition persona_named (name : string) : result persona :=
  match find (fun kv => String.eqb (fst kv) name) DEVELOPER_PERSONAS with
  | Some (_, p) => Ok p
  | None => Err KeyError
  end.

Definition persona_weights : list float := [0.20; 0.45; 0.25; 0.10]%float.
Definition seniorities : list string := ["junior"; "mid"; "senior"; "staff"]%string.

(** [range(n)]. *)
Definition py_range (n : Z) : list Z := map Z.of_nat (seq 0 (Z.to_nat n)).

(** One turn of the loop of [create_developers]. *)
Definition create_developer (i : Z) : M G developer :=
  let personas := map fst DEVELOPER_PERSONAS in
  team <- lift (py_index TEAMS (i mod NUM_TEAMS)) ;;
  persona_name <- choices personas persona_weights ;;
  persona <- lift (persona_named persona_name) ;;
  user_login <- lift (generate_developer_name i) ;;
  primary_ide <- choices IDES (map ide_weight IDES) ;;
  seniority <- choice seniorities ;;
  ret {| user_login := user_login;
         user_id := 1000000 + i;
         team := team_name team;
         repos := team_repos team;
         languages := team_languages team;
         persona_name := persona_name;
         persona_config := persona;
         primary_ide := primary_ide;
         seniority := seniority |}.

Definition create_developers : M G (list developer) :=
  mapM create_developer (py_range NUM_DEVELOPERS).

(** *** The whole data set *)

Context `{Calendar G}.

(** [if d:] for a dict. *)
Definition dict_truthy (d : record) : bool :=
  match map_to_list d with
  | [] => false
  | _ => true
  end.

(** [if x: l.append(x)] for an optional record. *)
Definition append_if (l : list record) (x : option record) : list record :=
  match x with
  | Some r => if dict_truthy r then l ++ [r] else l
  | None => l
  end.

(** The [for developer in developers] loop of one day. *)
Fixpoint for_developers (developers : list developer)
    (current_date copilot_adoption_date : PyDate.date)
    (copilot_metrics developer_activity : list record)
  : M G (list record * list record) :=
  match developers with
  | [] => ret (copilot_metrics, developer_activity)
  | developer :: rest =>
      (* Generate Copilot metrics (only after adoption) *)
      metrics <- generate_copilot_metrics_for_day developer current_date
                   copilot_adoption_date ;;
      let copilot_metrics := append_if copilot_metrics metrics in
      (* Generate developer activity (all days) *)
      activity <- generate_developer_activity_for_day developer current_date
                    copilot_adoption_date ;;
      let developer_activity := append_if developer_activity activity in
      for_developers rest current_date copilot_adoption_date
        copilot_metrics developer_activity
  end.

(** The [while current_date <= end_date] loop; one unit of fuel per day. *)
Fixpoint while_dates (fuel : nat) (developers : list developer)
    (current_date end_date copilot_adoption_date : PyDate.date)
    (copilot_metrics developer_activity : list record)
  : M G (list record * list record) :=
  match fuel with
  | O => timeout
  | S fuel' =>
      if current_date <=? end_date then
        both <- for_developers developers current_date copilot_adoption_date
                  copilot_metrics developer_activity ;;
        current_date <- lift (PyDate.add_days current_date 1) ;;
        while_dates fuel' developers current_date end_date copilot_adoption_date
          (fst both) (snd both)
      else ret (copilot_metrics, developer_activity)
  end.

Definition generate_all_mock_data (fuel : nat) : M G (list record * list record) :=
  (* Calculate dates *)
  end_date <- (fun g => (Ret (today_date g), g)) ;;
  start_date <- lift (PyDate.sub_days end_date DAYS_OF_DATA) ;;
  copilot_adoption_date <- lift (PyDate.sub_days end_date COPILOT_ADOPTION_DAYS_AGO) ;;
  (* Create developers *)
  developers <- create_developers ;;
  (* Generate data *)
  while_dates fuel developers start_date end_date copilot_adoption_date [] [].

End Simulator.
End MockData.

(** ** fetch_developer_activity.py *)

Module Fetcher.

(** What [requests.get] gives back: a response with its status code and
    the value of [response.json()] ([None] when decoding raises), or an
    exception of the transport. *)
Inductive response :=
| Response (status_code : Z) (json : option pyval)
| RequestFailed.

(** The outside world of the fetcher: the hosting API, the wall clock and
    the two helpers of the repository that live in other modules. *)
Class HostWorld (W : Type) := {
  (* requests.get(url, headers=headers) *)
  requests_get : string -> list (string * string) -> W -> response * W;
  (* the date of datetime.now() *)
  now_date : W -> PyDate.date;
  (* log_utils.current_time() *)
  current_time : W -> string;
  (* main.dict_save_to_json_file(records, name) *)
  dict_save_to_json_file : list record -> string -> W -> result unit * W
}.

(** The state the fetcher runs in: the world, and the URLs logged by
    [logger.info(f"REST API request: {url}")]. *)
Record fstate (W : Type) := FState {
  world : W;
  request_log : list string
}.
Arguments FState {W} world request_log.
Arguments world {W} f.
Arguments request_log {W} f.

Record DeveloperActivityFetcher := {
  token : string;
  organization_slug : string;
  is_standalone : bool;
  utc_offset : string        (* get_utc_offset() at construction *)
}.

Definition slug_type (self : DeveloperActivityFetcher) : string :=
  if is_standalone self then "Standalone" else "Organization".
Definition api_type (self : DeveloperActivityFetcher) : string :=
  if is_standalone self then "enterprises" else "orgs".
Definition headers (self : DeveloperActivityFetcher) : list (string * string) :=
  [("Accept", "application/vnd.github+json");
   ("Authorization", "Bearer " +:+ token self);
   ("X-GitHub-Api-Version", "2022-11-28")]%string.

(** Splitting a UTF-8 string into its characters: continuation bytes
    (10xxxxxx) stay with the byte that leads them. *)
Definition is_continuation (c : ascii) : bool :=
  Z.land (Z.of_N (N_of_ascii c)) 0xC0 =? 0x80.
Fixpoint chars_of (s : string) : list string :=
  match s with
  | EmptyString => []
  | String c rest =>
      match chars_of rest with
      | next :: others =>
          match next with
          | String c' _ =>
              if is_continuation c' then String c next :: others
              else String c EmptyString :: next :: others
          | EmptyString => String c EmptyString :: others
          end
      | [] => [String c EmptyString]
      end
  end.

(** [for x in v]: the items a value yields when iterated. *)
Definition py_iter (v : pyval) : result (list pyval) :=
  match v with
  | VList l => Ok l
  | VDict kv => Ok (map (fun p => VStr (fst p)) kv)
  | VStr s => Ok (map VStr (chars_of s))
  | _ => Err TypeError
  end.

(** [len(v)]. *)
Definition py_len (v : pyval) : result Z :=
  match v with
  | VList l => Ok (Z.of_nat (length l))
  | VDict kv => Ok (Z.of_nat (length kv))
  | VStr s => Ok (Z.of_nat (length (chars_of s)))
  | _ => Err TypeError
  end.

(** [[m.get(field) for m in page if m.get(field)]]. *)
Fixpoint collect_field (field : string) (items : list pyval) : result (list pyval) :=
  match items with
  | [] => Ok []
  | m :: rest =>
      obind (py_get m field VNone) (fun v =>
      obind (collect_field field rest) (fun vs =>
      Ok (if truthy v then v :: vs else vs)))
  end.
Definition page_field (field : string) (page : pyval) : result (list pyval) :=
  obind (py_iter page) (collect_field field).

Section Fetcher.
Context {W : Type} `{HostWorld W} `{Repr}.

Abbreviation F := (M (fstate W)).

Definition _make_rest_request (self : DeveloperActivityFetcher) (url : string)
    (error_return_value : pyval) : F pyval :=
  let error_return_value :=
    match error_return_value with VNone => VList [] | v => v end in
  fun s =>
    let s := FState (world s) (request_log s ++ [url]) in
    let '(resp, w) := requests_get url (headers self) (world s) in
    let s := FState w (request_log s) in
    match resp with
    | Response status_code json =>
        if negb (status_code =? 200) then (Ret error_return_value, s)
        else match json with
             | Some v => (Ret v, s)
             | None => (Ret error_return_value, s)
             end
    | RequestFailed => (Ret error_return_value, s)
    end.

(** The URL of one page of a listing. *)
Definition listing_url (self : DeveloperActivityFetcher)
    (resource suffix : string) (page per_page : Z) : string :=
  ("https://api.github.com/" +:+ api_type self +:+ "/"
   +:+ organization_slug self +:+ "/" +:+ resource
   +:+ "?page=" +:+ pretty page
   +:+ "&per_page=" +:+ pretty per_page +:+ suffix)%string.

(** The loop shared, word for word, by [get_organization_members]
    ([resource = "members"], [field = "login"]) and
    [get_organization_repos] ([resource = "repos"], [field = "name"],
    [suffix = "&type=all"]).  One unit of fuel per request. *)
Fixpoint paged_listing (fuel : nat) (self : DeveloperActivityFetcher)
    (resource suffix field : string) (per_page : Z)
    (acc : list pyval) (page : Z) : F (list pyval) :=
  match fuel with
  | O => timeout
  | S fuel' =>
      let url := listing_url self resource suffix page per_page in
      page_items <- _make_rest_request self url (VList []) ;;
      if negb (truthy page_items) then ret acc else
      found <- lift (page_field field page_items) ;;
      let acc := acc ++ found in
      n <- lift (py_len page_items) ;;
      if n <? per_page then ret acc
      else paged_listing fuel' self resource suffix field per_page acc (page + 1)
  end.

Definition get_organization_members (fuel : nat) (self : DeveloperActivityFetcher)
  : F (list pyval) :=
  paged_listing fuel self "members" "" "login" 100 [] 1.

Definition get_organization_repos (fuel : nat) (self : DeveloperActivityFetcher)
  : F (list pyval) :=
  paged_listing fuel self "repos" "&type=all" "name" 100 [] 1.

(** *** Per-user metric queries *)

(** [a == b] on hashable values (numbers compare by value, across
    [bool], [int] and [float]). *)
Definition py_eq_hashable (a b : pyval) : bool :=
  match as_number a, as_number b with
  | Some (NInt x), Some (NInt y) => x =? y
  | Some (NFloat f), Some (NFloat g) => PrimFloat.eqb f g
  | Some (NInt x), Some (NFloat f) | Some (NFloat f), Some (NInt x) =>
      match PyNum.float_of_int x, PyNum.int_of_float f with
      | Ok fx, Ok i => PrimFloat.eqb fx f && (i =? x)
      | _, _ => false
      end
  | _, _ =>
      match a, b with
      | VStr s, VStr t => String.eqb s t
      | VNone, VNone => true
      | _, _ => false
      end
  end.

(** [s.add(v)] on a set kept as the list of its elements. *)
Definition set_add (v : pyval) (s : list pyval) : result (list pyval) :=
  match v with
  | VList _ | VDict _ => Err TypeError      (* unhashable *)
  | _ => Ok (if existsb (py_eq_hashable v) s then s else s ++ [v])
  end.

(** The loop over the items of a commit search; an exception stops it
    and keeps what the set holds by then. *)
Fixpoint collect_repos (items : list pyval) (repos_contributed : list pyval)
  : list pyval :=
  match items with
  | [] => repos_contributed
  | item :: rest =>
      match obind (py_get item "repository" (VDict [])) (fun repository =>
            obind (py_get repository "name" VNone) (fun repo_name =>
            if truthy repo_name then set_add repo_name repos_contributed
            else Ok repos_contributed)) with
      | Ok repos_contributed' => collect_repos rest repos_contributed'
      | _ => repos_contributed
      end
  end.

(** The body of the [try] of [get_user_commits] once the response has
    been decoded: (total_commits, repos_contributed). *)
Definition parse_commit_search (data : pyval) : pyval * list pyval :=
  match py_get data "total_count" (VInt 0) with
  | Ok total_commits =>
      match obind (py_get data "items" (VList [])) py_iter with
      | Ok items => (total_commits, collect_repos items [])
      | _ => (total_commits, [])
      end
  | _ => (VInt 0, [])
  end.

Record commit_metrics := {
  cm_commit_count : pyval;
  cm_repos_contributed : Z;
  cm_repos_list : list pyval        (* in an order the interpreter chooses *)
}.

Record pr_metrics := {
  pm_prs_opened : pyval;
  pm_prs_merged : pyval;
  pm_prs_reviewed : pyval;
  pm_pr_comments : pyval;
  pm_prs_closed : pyval
}.

Record issue_metrics := {
  im_issues_opened : pyval;
  im_issues_closed : pyval;
  im_issue_comments : pyval
}.

Definition get_user_commits (fuel : nat) (self : DeveloperActivityFetcher)
    (user_login : pyval) (since_date until_date : PyDate.date) : F commit_metrics :=
  _repos <- get_organization_repos fuel self ;;
  let since_str := PyDate.strftime since_date in
  let until_str := PyDate.strftime until_date in
  let query := ("org:" +:+ organization_slug self +:+ " author:" +:+ py_str user_login
                +:+ " author-date:" +:+ since_str +:+ ".." +:+ until_str)%string in
  let url := ("https://api.github.com/search/commits?q=" +:+ query
              +:+ "&per_page=100")%string in
  let headers :=
    [("Accept", "application/vnd.github.cloak-preview+json");
     ("Authorization", "Bearer " +:+ token self);
     ("X-GitHub-Api-Version", "2022-11-28")]%string in
  fun s =>
    let '(resp, w) := requests_get url headers (world s) in
    let '(total_commits, repos_contributed) :=
      match resp with
      | Response status_code (Some data) =>
          if status_code =? 200 then parse_commit_search data else (VInt 0, [])
      | _ => (VInt 0, [])
      end in
    (Ret {| cm_commit_count := total_commits;
            cm_repos_contributed := Z.of_nat (length repos_contributed);
            cm_repos_list := repos_contributed |},
     FState w (request_log s)).

(** One count-only search: [_make_rest_request(url, {})] then
    [data.get("total_count", 0)]. *)
Definition search_count (self : DeveloperActivityFetcher) (query : string) : F pyval :=
  let url := ("https://api.github.com/search/issues?q=" +:+ query
              +:+ "&per_page=1")%string in
  data <- _make_rest_request self url (VDict []) ;;
  lift (py_get data "total_count" (VInt 0)).

Definition issue_query (self : DeveloperActivityFetcher) (who : string)
    (user_login : pyval) (field since_str until_str kind : string) : string :=
  ("org:" +:+ organization_slug self +:+ " " +:+ who +:+ ":" +:+ py_str user_login
   +:+ " " +:+ field +:+ ":" +:+ since_str +:+ ".." +:+ until_str
   +:+ " is:" +:+ kind)%string.

Definition get_user_pull_requests (self : DeveloperActivityFetcher)
    (user_login : pyval) (since_date until_date : PyDate.date) : F pr_metrics :=
  let since_str := PyDate.strftime since_date in
  let until_str := PyDate.strftime until_date in
  let q who field := issue_query self who user_login field since_str until_str "pr" in
  prs_opened <- search_count self (q "author" "created")%string ;;
  prs_merged <- search_count self (q "author" "merged")%string ;;
  prs_reviewed <- search_count self (q "reviewed-by" "created")%string ;;
  pr_comments <- search_count self (q "commenter" "created")%string ;;
  ret {| pm_prs_opened := prs_opened; pm_prs_merged := prs_merged;
         pm_prs_reviewed := prs_reviewed; pm_pr_comments := pr_comments;
         pm_prs_closed := VInt 0 |}.

Definition get_user_issues (self : DeveloperActivityFetcher)
    (user_login : pyval) (since_date until_date : PyDate.date) : F issue_metrics :=
  let since_str := PyDate.strftime since_date in
  let until_str := PyDate.strftime until_date in
  let q who field := issue_query self who user_login field since_str until_str "issue" in
  issues_opened <- search_count self (q "author" "created")%string ;;
  issues_closed <- search_count self (q "author" "closed")%string ;;
  issue_comments <- search_count self (q "commenter" "created")%string ;;
  ret {| im_issues_opened := issues_opened; im_issues_closed := issues_closed;
         im_issue_comments := issue_comments |}.

(** *** Aggregation *)

(** [round(v / days_back, 2)]. *)
Definition rate_per_day (v : pyval) (days_back : Z) : result float :=
  obind (py_truediv v days_back) (fun q => Ok (PyNum.round2 q)).

(** The body of the [try] in the loop of
    [fetch_developer_activity_for_members]: the record of one member. *)
Definition member_record (fuel : nat) (self : DeveloperActivityFetcher)
    (member : pyval) (since_date until_date : PyDate.date) (days_back : Z)
    (current_time_str : string) : F record :=
  (* Get all metrics for this user *)
  cm <- get_user_commits fuel self member since_date until_date ;;
  pm <- get_user_pull_requests self member since_date until_date ;;
  im <- get_user_issues self member since_date until_date ;;
  (* Calculate aggregate scores *)
  t <- lift (py_add (cm_commit_count cm) (pm_prs_opened pm)) ;;
  t <- lift (py_add t (pm_prs_merged pm)) ;;
  t <- lift (py_add t (pm_prs_reviewed pm)) ;;
  total_contributions <- lift (py_add t (im_issues_opened im)) ;;
  code_review_activity <- lift (py_add (pm_prs_reviewed pm) (pm_pr_comments pm)) ;;
  (* Create record for this user (aggregated for the period) *)
  commits_per_day <- lift (rate_per_day (cm_commit_count cm) days_back) ;;
  prs_per_day <- lift (rate_per_day (pm_prs_opened pm) days_back) ;;
  reviews_per_day <- lift (rate_per_day (pm_prs_reviewed pm) days_back) ;;
  let record : record :=
    list_to_map
      ([("user_login", member);
        ("organization_slug", VStr (organization_slug self));
        ("slug_type", VStr (slug_type self));
        ("day", VStr (PyDate.strftime until_date));
        ("report_start_day", VStr (PyDate.strftime since_date));
        ("report_end_day", VStr (PyDate.strftime until_date));
        ("period_days", VInt days_back);
        ("commit_count", cm_commit_count cm);
        ("repos_contributed", VInt (cm_repos_contributed cm));
        ("prs_opened", pm_prs_opened pm);
        ("prs_merged", pm_prs_merged pm);
        ("prs_reviewed", pm_prs_reviewed pm);
        ("pr_comments", pm_pr_comments pm);
        ("prs_closed", pm_prs_closed pm);
        ("issues_opened", im_issues_opened im);
        ("issues_closed", im_issues_closed im);
        ("issue_comments", im_issue_comments im);
        ("total_contributions", total_contributions);
        ("code_review_activity", code_review_activity);
        ("commits_per_day", VFloat commits_per_day);
        ("prs_per_day", VFloat prs_per_day);
        ("reviews_per_day", VFloat reviews_per_day);
        ("last_updated_at", VStr current_time_str);
        ("utc_offset", VStr (utc_offset self))]%string) in
  (* Generate unique hash *)
  let unique_hash :=
    generate_unique_hash record
      ["organization_slug"; "user_login"; "report_start_day"; "report_end_day"]%string in
  ret (<["unique_hash"%string := VStr unique_hash]> record).

(** The [for member in members] loop: a member whose processing raises is
    logged and skipped. *)
Fixpoint process_members (fuel : nat) (self : DeveloperActivityFetcher)
    (members : list pyval) (since_date until_date : PyDate.date) (days_back : Z)
    (current_time_str : string) (all_records : list record) : F (list record) :=
  match members with
  | [] => ret all_records
  | member :: rest =>
      r <- try_except
             (rec <- member_record fuel self member since_date until_date
                       days_back current_time_str ;;
              ret (Some rec))
             (fun _ => ret None) ;;
      process_members fuel self rest since_date until_date days_back
        current_time_str
        (match r with Some rec => all_records ++ [rec] | None => all_records end)
  end.

Definition fetch_developer_activity_for_members (fuel : nat)
    (self : DeveloperActivityFetcher) (members : option (list pyval))
    (days_back : Z) (save_to_json : bool) : F (list record) :=
  members <- match members with
             | None => get_organization_members fuel self
             | Some members => ret members
             end ;;
  match members with
  | [] => ret []
  | _ =>
      (* Calculate date range *)
      until_date <- (fun s => (Ret (now_date (world s)), s)) ;;
      since_date <- lift (PyDate.sub_days until_date days_back) ;;
      current_time_str <- (fun s => (Ret (current_time (world s)), s)) ;;
      all_records <- process_members fuel self members since_date until_date
                       days_back current_time_str [] ;;
      (* Save to JSON if requested *)
      _saved <- match save_to_json, all_records with
                | true, _ :: _ =>
                    fun s =>
                      let '(r, w) :=
                        dict_save_to_json_file all_records
                          (organization_slug self +:+ "_developer_activity")%string
                          (world s) in
                      lift r (FState w (request_log s))
                | _, _ => ret tt
                end ;;
      ret all_records
  end.

(** [fetch_developer_activity(token, organization_slug, is_standalone,
    days_back)]: a fresh fetcher, all members. *)
Definition fetch_developer_activity (fuel : nat) (token organization_slug : string)
    (is_standalone : bool) (days_back : Z) (utc_offset : string) : F (list record) :=
  fetch_developer_activity_for_members fuel
    {| token := token; organization_slug := organization_slug;
       is_standalone := is_standalone; utc_offset := utc_offset |}
    None days_back true.

End Fetcher.
End Fetcher.

(** ** Loading the simulated data ([load_to_elasticsearch]) *)

Module Loader.

(** The settings the module reads from the environment when imported. *)
Record settings := {
  ELASTICSEARCH_URL : string;          (* default http://localhost:9200 *)
  INDEX_USER_METRICS : string;         (* default copilot_user_metrics *)
  INDEX_DEVELOPER_ACTIVITY : string    (* default developer_activity *)
}.

Inductive http_method := GET | DELETE | PUT | POST.

(** What a call of [requests] gives back: a response with its status code
    and the value of [response.json()] ([None] when decoding raises), or
    an exception. *)
Inductive answer :=
| Answer (status_code : Z) (json : option pyval)
| ConnectionError            (* requests.exceptions.ConnectionError *)
| RequestError.              (* any other exception of the call *)

(** The outside world of the loader. *)
Class StoreWorld (W : Type) := {
  (* requests.<method>(url, headers=headers, data=data) *)
  http : http_method -> string -> list (string * string) -> option string
         -> W -> answer * W;
  (* the mapping file of that name beside the script: absent, or what
     reading it gives *)
  read_mapping : string -> W -> option (result string);
  (* json.dumps, on a value and on a record *)
  json_dumps : pyval -> string;
  json_dumps_record : record -> string
}.

(** A request outside of any [try]: an exception propagates. *)
Definition request {W} `{StoreWorld W} (method : http_method) (url : string)
    (headers : list (string * string)) (data : option string)
  : M W (Z * option pyval) :=
  fun w =>
    match http method url headers data w with
    | (Answer status_code json, w') => (Ret (status_code, json), w')
    | (_, w') => (Raise OSError, w')
    end.

Definition newline : string := String (ascii_of_nat 10) EmptyString.

(** [range(0, stop, step)]. *)
Definition range_from_0 (stop step : Z) : result (list Z) :=
  if step =? 0 then Err ValueError
  else
    let len := if (0 <? step) && (0 <? stop) then 1 + (stop - 1) / step
               else if (step <? 0) && (stop <? 0) then 1 + (- 1 - stop) / (- step)
               else 0 in
    Ok (map (fun k => Z.of_nat k * step) (seq 0 (Z.to_nat len))).

(** [l[i:j]] for [0 <= i]. *)
Definition py_slice {A} (l : list A) (i j : Z) : list A :=
  take (Z.to_nat (j - i)) (drop (Z.to_nat i) l).

(** [sum(1 for item in items if item.get("index", {}).get("error"))]. *)
Fixpoint count_error_items (items : list pyval) (count : Z) : result Z :=
  match items with
  | [] => Ok count
  | item :: rest =>
      obind (py_get item "index" (VDict [])) (fun index =>
      obind (py_get index "error" VNone) (fun error =>
      count_error_items rest (if truthy error then count + 1 else count)))
  end.

Definition count_errors (decoded : pyval) : result Z :=
  obind (py_get decoded "items" (VList [])) (fun items =>
  obind (Fetcher.py_iter items) (fun items =>
  count_error_items items 0)).

Section Loader.
Context {W : Type} `{StoreWorld W}.
Variable env : settings.

Definition headers : list (string * string) :=
  [("Content-Type", "application/json")]%string.

Definition ensure_index_with_mapping (index_name mapping_file : string) : M W unit :=
  (* Delete existing index *)
  _delete_response <- request DELETE (ELASTICSEARCH_URL env +:+ "/" +:+ index_name)
                        [] None ;;
  (* Create with mapping *)
  mapping <- (fun w => (Ret (read_mapping mapping_file w), w)) ;;
  match mapping with
  | Some contents =>
      mapping <- lift contents ;;
      _create_response <- request PUT (ELASTICSEARCH_URL env +:+ "/" +:+ index_name)
                            headers (Some mapping) ;;
      ret tt
  | None => ret tt
  end.

(** The lines of one batch, appended to [bulk_body]. *)
Fixpoint bulk_lines (index_name : string) (batch : list record) (bulk_body : string)
  : result string :=
  match batch with
  | [] => Ok bulk_body
  | record :: rest =>
      match record !! "unique_hash"%string with
      | None => Err KeyError
      | Some id =>
          (* Action line *)
          let action :=
            json_dumps (VDict [("index", VDict [("_index", VStr index_name);
                                                ("_id", id)])]%string) in
          (* Document line *)
          let doc := json_dumps_record record in
          bulk_lines index_name rest
            (bulk_body +:+ action +:+ newline +:+ doc +:+ newline)
      end
  end.

(** The [for i in range(0, total, batch_size)] loop of [bulk_index]. *)
Fixpoint bulk_batches (index_name : string) (records : list record) (batch_size : Z)
    (starts : list Z) (indexed errors : Z) : M W (Z * Z) :=
  match starts with
  | [] => ret (indexed, errors)
  | i :: rest =>
      let batch := py_slice records i (i + batch_size) in
      bulk_body <- lift (bulk_lines index_name batch "") ;;
      fun w =>
        let '(response, w') :=
          http POST (ELASTICSEARCH_URL env +:+ "/_bulk") headers (Some bulk_body) w in
        let len_batch := Z.of_nat (length batch) in
        let failed := (indexed, errors + len_batch) in
        let '(indexed, errors) :=
          match response with
          | Answer status_code json =>
              if (status_code =? 200) || (status_code =? 201) then
                match json with
                | Some decoded =>
                    match count_errors decoded with
                    | Ok batch_errors =>
                        (indexed + (len_batch - batch_errors), errors + batch_errors)
                    | Err _ => failed
                    end
                | None => failed
                end
              else failed
          | _ => failed
          end in
        bulk_batches index_name records batch_size rest indexed errors w'
  end.

Definition bulk_index (index_name : string) (records : list record) (batch_size : Z)
  : M W (Z * Z) :=
  let total := Z.of_nat (length records) in
  starts <- lift (range_from_0 total batch_size) ;;
  bulk_batches index_name records batch_size starts 0 0.

Definition load_to_elasticsearch (copilot_metrics developer_activity : list record)
  : M W bool :=
  fun w =>
    (* Check connection *)
    match http GET (ELASTICSEARCH_URL env +:+ "/_cluster/health") [] None w with
    | (ConnectionError, w') => (Ret false, w')
    | (RequestError, w') => (Raise OSError, w')
    | (Answer status_code _, w') =>
        if negb (status_code =? 200) then (Ret false, w')
        else
          ((* Delete and recreate indexes with proper mappings *)
           _ <- ensure_index_with_mapping (INDEX_USER_METRICS env)
                  "copilot_user_metrics_mapping.json" ;;
           _ <- ensure_index_with_mapping (INDEX_DEVELOPER_ACTIVITY env)
                  "developer_activity_mapping.json" ;;
           (* Load Copilot metrics *)
           _counts <- bulk_index (INDEX_USER_METRICS env) copilot_metrics 500 ;;
           (* Load developer activity *)
           _counts <- bulk_index (INDEX_DEVELOPER_ACTIVITY env) developer_activity 500 ;;
           (* Refresh indices *)
           _ <- request POST (ELASTICSEARCH_URL env +:+ "/"
                              +:+ INDEX_USER_METRICS env +:+ "/_refresh") [] None ;;
           _ <- request POST (ELASTICSEARCH_URL env +:+ "/"
                              +:+ INDEX_DEVELOPER_ACTIVITY env +:+ "/_refresh") [] None ;;
           ret true) w'
    end.

End Loader.
End Loader.

(** ** Test worlds

    Concrete instances of the two interfaces, to run the models on. *)

Module TestWorlds.
Import Fetcher.

(** A scripted random generator: the draws are read off two lists (and
    brought into range); an exhausted list yields 0.5 and 0. *)
Record script := Script { floats : list float; ints : list Z }.

Definition in_unit_interval (x : float) : bool :=
  PrimFloat.leb 0 x && PrimFloat.ltb x 1.

Definition script_random (g : script) : float * script :=
  match floats g with
  | x :: rest => (if in_unit_interval x then x else 0.5%float, Script rest (ints g))
  | [] => (0.5%float, g)
  end.

Definition script_randbelow (n : Z) (g : script) : Z * script :=
  match ints g with
  | x :: rest => (x mod n, Script (floats g) rest)
  | [] => (0, g)
  end.

Lemma script_random_range g :
  PrimFloat.leb 0 (fst (script_random g)) = true
  /\ PrimFloat.ltb (fst (script_random g)) 1 = true.
Proof.
  unfold script_random. destruct (floats g) as [|x rest]; simpl.
  - split; reflexivity.
  - destruct (in_unit_interval x) eqn:E.
    + unfold in_unit_interval in E. apply andb_true_iff in E. exact E.
    + split; reflexivity.
Qed.

Lemma script_randbelow_range n g :
  0 < n -> 0 <= fst (script_randbelow n g) < n.
Proof.
  intros Hn. unfold script_randbelow. destruct (ints g); simpl.
  - lia.
  - apply Z.mod_pos_bound. exact Hn.
Qed.

#[export] Instance script_world : MockData.SimWorld script := {|
  MockData.random_random := script_random;
  MockData.random_randbelow := script_randbelow;
  MockData.now_isoformat := fun _ => "2026-11-04T09:30:00.000000"%string;
  MockData.random_random_range := script_random_range;
  MockData.random_randbelow_range := script_randbelow_range
|}.

#[export] Instance plain_repr : Repr := fun _ => "<object>"%string.

Definition alex : MockData.developer :=
  {| MockData.user_login := "alex-chen";
     MockData.user_id := 1000000;
     MockData.team := "platform";
     MockData.repos := ["api-gateway"; "auth-service"; "config-manager"]%string;
     MockData.languages := ["go"; "python"]%string;
     MockData.persona_name := "regular";
     MockData.persona_config := MockData.regular;
     MockData.primary_ide := MockData.Ide "vscode" 0.60 "1.234.0";
     MockData.seniority := "senior" |}.

(** A host that answers by URL alone, with a fixed clock; saving the
    JSON file succeeds unless [save_error] is set. *)
Record host := Host {
  serve : string -> response;
  clock : PyDate.date;
  save_error : option exn
}.

#[export] Instance host_world : HostWorld host := {|
  requests_get := fun url _ w => (serve w url, w);
  now_date := clock;
  current_time := fun _ => "2026-11-04T09:30:00Z"%string;
  dict_save_to_json_file :=
    fun _ _ w => (match save_error w with Some e => Err e | None => Ok tt end, w)
|}.

Definition acme : DeveloperActivityFetcher :=
  {| token := "t0ken"; organization_slug := "acme-corp";
     is_standalone := false; utc_offset := "+00:00" |}.

(** [n] member objects with logins user<first>, user<first+1>, ... *)
Definition members_from (first : Z) (n : nat) : list pyval :=
  map (fun i => VDict [("login", VStr ("user" +:+ pretty (first + Z.of_nat i)));
                       ("id", VInt (first + Z.of_nat i))]%string)
      (seq 0 n).

(** A member listing served page by page; anything else is an empty list. *)
Definition serve_member_pages (pages : list (list pyval)) (url : string) : response :=
  match
    find (fun ip => String.eqb url (listing_url acme "members" "" (fst ip) 100))
         (combine (map Z.of_nat (seq 1 (length pages))) pages)
  with
  | Some (_, page) => Response 200 (Some (VList page))
  | None => Response 200 (Some (VList []))
  end.

(** The same pages, but every other request is answered 503. *)
Definition serve_pages_then_fail (pages : list (list pyval)) (url : string) : response :=
  match
    find (fun ip => String.eqb url (listing_url acme "members" "" (fst ip) 100))
         (combine (map Z.of_nat (seq 1 (length pages))) pages)
  with
  | Some (_, page) => Response 200 (Some (VList page))
  | None => Response 503 None
  end.

(** A host whose searches all report [n] results (three commits in two
    repositories on the first page) and whose listings are empty. *)
Definition serve_counts (n : Z) (url : string) : response :=
  if MockData.contains "/search/" url then
    Response 200
      (Some (VDict
         [("total_count", VInt n);
          ("items",
           VList [VDict [("repository", VDict [("name", VStr "api-gateway")])];
                  VDict [("repository", VDict [("name", VStr "web-app")])];
                  VDict [("repository", VDict [("name", VStr "api-gateway")])]])]))
  else Response 200 (Some (VList [])).

(** A small organisation with no state at all: every search reports 5
    results, every listing is empty, saving succeeds. *)
Inductive small_org := SmallOrg.

#[export] Instance small_org_world : HostWorld small_org := {|
  requests_get := fun url _ w => (serve_counts 5 url, w);
  now_date := fun _ => 739924;
  current_time := fun _ => "2026-11-04T09:30:00Z"%string;
  dict_save_to_json_file := fun _ _ w => (Ok tt, w)
|}.

(** A host on which every query that mentions bob is answered with a JSON
    array instead of an object. *)
Definition serve_broken_for_bob (url : string) : response :=
  if MockData.contains "bob" url then Response 200 (Some (VList [VInt 1]))
  else serve_counts 5 url.

(** 2026-11-04, a Wednesday, and an adoption date 70 days before it. *)
Definition today : PyDate.date := 739924.
Definition adoption : PyDate.date := 739854.

End TestWorlds.


(** * Properties *)

(** ** Reasoning in the monad *)

Lemma bind_Ret_inv {S A B} (m : M S A) (k : A -> M S B) s b s' :
  bind m k s = (Ret b, s') ->
  exists a s1, m s = (Ret a, s1) /\ k a s1 = (Ret b, s').
Proof.
  unfold bind. destruct (m s) as [[a| e |] s1]; intros Hk; try discriminate.
  exists a, s1. split; [reflexivity | exact Hk].
Qed.

Lemma lift_Ret_inv {S A} (o : result A) (s : S) a s' :
  lift o s = (Ret a, s') -> o = Ok a /\ s' = s.
Proof. unfold lift. destruct o; intros [= -> ->]. split; reflexivity. Qed.

Lemma ret_Ret_inv {S A} (x : A) (s : S) a s' :
  ret x s = (Ret a, s') -> a = x /\ s' = s.
Proof. unfold ret. intros [= -> ->]. split; reflexivity. Qed.

Lemma ret_Some_inv {S A} (x : A) (s : S) a s' :
  ret (Some x) s = (Ret (Some a), s') -> a = x /\ s' = s.
Proof. unfold ret. intros [= -> ->]. split; reflexivity. Qed.

Lemma obind_Ok_inv {A B} (o : result A) (k : A -> result B) b :
  obind o k = Ok b -> exists a, o = Ok a /\ k a = Ok b.
Proof.
  destruct o as [a| e]; simpl; intros Hk; try discriminate.
  exists a. split; [reflexivity | exact Hk].
Qed.

(** Peel the binds of a run that returned. *)
Ltac inv_run H :=
  repeat
    match type of H with
    | bind _ _ _ = (Ret _, _) =>
        let a := fresh "a" in
        let s := fresh "s" in
        let Hm := fresh "Hm" in
        apply bind_Ret_inv in H; destruct H as (a & s & Hm & H)
    end.

(** ** The adoption ramp *)

Section Ramp.
Import MockData.

(** C1, as stated, fails on the adoption day itself: there
    [days_since_adoption = 0] and the multiplier is the week-1 value 0.98,
    not the baseline 1.0. *)
Lemma ramp_day_zero_is_week_one :
  PyDate.days_between TestWorlds.adoption TestWorlds.adoption = 0
  /\ get_activity_modifier TestWorlds.adoption TestWorlds.adoption = 0.98%float
  /\ get_activity_modifier TestWorlds.adoption TestWorlds.adoption <> 1.0%float.
Proof.
  split; [reflexivity|]. split; [reflexivity|].
  intros Heq.
  apply (f_equal (fun x => PrimFloat.eqb x 1.0)) in Heq.
  vm_compute in Heq. discriminate.
Qed.

Ltac ramp_cases :=
  unfold get_activity_modifier, PyDate.days_between in *;
  repeat match goal with
         | |- context [?a <? ?b] => destruct (Z.ltb_spec a b)
         end;
  try lia; try reflexivity.

(** C1 (amended): before the adoption date the multiplier is 1.0; from the
    adoption date on it is constant on each of the steps [0,7), [7,14),
    [14,21), [21,28), [28,35), [35,42), [42,56), [56,oo) with the values
    0.98, 1.02, 1.08, 1.15, 1.20, 1.25, 1.28, 1.30 (so 0.98 at days 0 and
    6, 1.02 at 13, 1.08 at 20, 1.15 at 27, 1.20 at 34, 1.25 at 41, 1.28 at
    55, 1.30 at 56 and at every later day such as 70), and it never
    decreases from the adoption date on. *)
Theorem activity_modifier_schedule (copilot_adoption_date date : PyDate.date) :
  let d := PyDate.days_between date copilot_adoption_date in
  let m := get_activity_modifier date copilot_adoption_date in
  (date < copilot_adoption_date -> m = 1.0%float)
  /\ (0 <= d < 7 -> m = 0.98%float)
  /\ (7 <= d < 14 -> m = 1.02%float)
  /\ (14 <= d < 21 -> m = 1.08%float)
  /\ (21 <= d < 28 -> m = 1.15%float)
  /\ (28 <= d < 35 -> m = 1.20%float)
  /\ (35 <= d < 42 -> m = 1.25%float)
  /\ (42 <= d < 56 -> m = 1.28%float)
  /\ (56 <= d -> m = 1.30%float)
  /\ (forall later : PyDate.date,
        copilot_adoption_date <= date <= later ->
        PrimFloat.leb m (get_activity_modifier later copilot_adoption_date) = true).
Proof.
  cbv zeta.
  repeat split; intros; ramp_cases.
Qed.

(** The boundary days of C1 on a concrete adoption date. *)
Lemma activity_modifier_schedule_witness :
  map (fun d => get_activity_modifier (TestWorlds.adoption + d) TestWorlds.adoption)
      [0; 6; 13; 20; 27; 34; 41; 55; 56; 70]
  = [0.98; 0.98; 1.02; 1.08; 1.15; 1.20; 1.25; 1.28; 1.30; 1.30]%float
  /\ get_activity_modifier (TestWorlds.adoption - 1) TestWorlds.adoption = 1.0%float
  /\ PrimFloat.leb (get_activity_modifier (TestWorlds.adoption + 7) TestWorlds.adoption)
                   (get_activity_modifier (TestWorlds.adoption + 70) TestWorlds.adoption)
     = true.
Proof.
  split; [reflexivity|]. split.
  - apply (activity_modifier_schedule TestWorlds.adoption (TestWorlds.adoption - 1)).
    unfold TestWorlds.adoption. lia.
  - apply (activity_modifier_schedule TestWorlds.adoption (TestWorlds.adoption + 7)).
    unfold TestWorlds.adoption. lia.
Defined.

End Ramp.

(** ** The identity hash *)

Section IdentityHash.
Context `{Repr}.

(** The serialised value of a key field, if it has one. *)
Definition key_value (data : record) (key_property : string) : option string :=
  match data !! key_property with
  | Some VNone | None => None
  | Some value => Some (py_str value)
  end.

Lemma key_element_key_value data k :
  key_element data k = default ""%string (key_value data k).
Proof.
  unfold key_element, key_value.
  destruct (data !! k) as [[]|]; reflexivity.
Qed.

Lemma key_elements_agree (data data' : record) (keys : list string) :
  (forall k, k ∈ keys -> data' !! k = data !! k) ->
  map (key_element data') keys = map (key_element data) keys.
Proof.
  induction keys as [|k keys IH]; intros Hagree; simpl.
  - reflexivity.
  - f_equal.
    + unfold key_element. rewrite (Hagree k); [reflexivity | left].
    + apply IH. intros k' Hk'. apply Hagree. right. exact Hk'.
Qed.

(** C3: [generate_unique_hash] is SHA-256 of the UTF-8 bytes of the key
    values joined by "-", a missing or [None] field counting as the empty
    string; it depends on the key fields only: two records that agree on
    them hash alike, and setting or removing any other field changes
    nothing. *)
Theorem unique_hash_of_key_fields (data : record) (key_properties : list string) :
  generate_unique_hash data key_properties
  = spec_identity_hash (map (key_value data) key_properties)
  /\ (forall data' : record,
        (forall k, k ∈ key_properties -> data' !! k = data !! k) ->
        generate_unique_hash data' key_properties
        = generate_unique_hash data key_properties)
  /\ (forall (field : string) (v : pyval),
        field ∉ key_properties ->
        generate_unique_hash (<[field := v]> data) key_properties
        = generate_unique_hash data key_properties)
  /\ (forall field : string,
        field ∉ key_properties ->
        generate_unique_hash (delete field data) key_properties
        = generate_unique_hash data key_properties).
Proof.
  assert (Hagree : forall data' : record,
             (forall k, k ∈ key_properties -> data' !! k = data !! k) ->
             generate_unique_hash data' key_properties
             = generate_unique_hash data key_properties).
  { intros data' Hk. unfold generate_unique_hash.
    rewrite (key_elements_agree data data' key_properties Hk). reflexivity. }
  split; [|split; [exact Hagree | split]].
  - unfold generate_unique_hash, spec_identity_hash.
    rewrite map_map. do 3 f_equal.
    apply map_ext. intros k. apply key_element_key_value.
  - intros field v Hfield. apply Hagree. intros k Hk.
    apply lookup_insert_ne. intros ->. exact (Hfield Hk).
  - intros field Hfield. apply Hagree. intros k Hk.
    apply lookup_delete_ne. intros ->. exact (Hfield Hk).
Qed.

End IdentityHash.

Section IdentityHashExample.
Import TestWorlds.

(** A record keyed like the simulator's: changing a counter keeps the
    hash, which is the digest Python computes for
    "acme-corp-alex-chen-2026-11-04". *)
Lemma unique_hash_of_key_fields_witness :
  let data : record :=
    list_to_map [("organization_slug", VStr "acme-corp");
                 ("user_login", VStr "alex-chen");
                 ("day", VStr "2026-11-04");
                 ("commit_count", VInt 3)]%string in
  let keys := ["organization_slug"; "user_login"; "day"]%string in
  generate_unique_hash (<["commit_count"%string := VInt 7]> data) keys
  = generate_unique_hash data keys
  /\ generate_unique_hash data keys
     = "bb53f64e2dd45a7e408c1352ff0b2b0c7ddc4d96942f2c5281f9897776cb054f"%string.
Proof.
  cbv zeta. split.
  - match goal with
    | |- generate_unique_hash (<[_ := _]> ?data) ?keys = _ =>
        destruct (unique_hash_of_key_fields data keys) as (_ & _ & Hset & _)
    end.
    apply Hset.
    intros Hin. repeat (apply elem_of_cons in Hin as [Hin|Hin]; [discriminate|]).
    inversion Hin.
  - vm_compute. reflexivity.
Defined.

End IdentityHashExample.

(** ** Days before the adoption date *)

Section PreAdoption.
Import MockData.
Context {G : Type} `{SimWorld G} `{Repr}.

Definition with_copilot_multiplier (dev : developer) (m : float) : developer :=
  let p := persona_config dev in
  {| user_login := user_login dev; user_id := user_id dev; team := team dev;
     repos := repos dev; languages := languages dev;
     persona_name := persona_name dev;
     persona_config :=
       {| base_commits := base_commits p; base_prs := base_prs p;
          base_reviews := base_reviews p; copilot_multiplier := m;
          copilot_adoption_rate := copilot_adoption_rate p;
          acceptance_rate_range := acceptance_rate_range p;
          features := features p |};
     primary_ide := primary_ide dev; seniority := seniority dev |}.

(** C8: on a day strictly before the adoption date the usage generator
    returns [None] without drawing anything, and the activity generator
    runs its body with the modifier 1.0: its result depends neither on the
    persona's [copilot_multiplier] nor on which later day adoption is. *)
Theorem pre_adoption_day (dev : developer) (date copilot_adoption_date : PyDate.date)
    (g : G) :
  date < copilot_adoption_date ->
  generate_copilot_metrics_for_day dev date copilot_adoption_date g = (Ret None, g)
  /\ generate_developer_activity_for_day dev date copilot_adoption_date g
     = unless_day_off date (activity_record_with_modifier 1.0 dev date) g
  /\ (forall (m : float) (other_adoption_date : PyDate.date),
        date < other_adoption_date ->
        generate_developer_activity_for_day (with_copilot_multiplier dev m) date
          other_adoption_date g
        = generate_developer_activity_for_day dev date copilot_adoption_date g).
Proof.
  intros Hbefore.
  assert (Hbody : forall dev' adopt, date < adopt ->
            generate_developer_activity_for_day dev' date adopt g
            = unless_day_off date (activity_record_with_modifier 1.0 dev' date) g).
  { intros dev' adopt Hlt. unfold generate_developer_activity_for_day.
    destruct (Z.leb_spec adopt date); [lia | reflexivity]. }
  split; [|split].
  - unfold generate_copilot_metrics_for_day.
    destruct (Z.ltb_spec date copilot_adoption_date); [reflexivity | lia].
  - apply Hbody, Hbefore.
  - intros m other Hother. rewrite !Hbody by assumption. reflexivity.
Qed.

End PreAdoption.

(** The field [k] of the record a run of a generator returned. *)
Definition field_of_run {S : Type} (run : outcome (option record) * S) (k : string)
  : option pyval :=
  match fst run with
  | Ret (Some r) => r !! k
  | _ => None
  end.

Section PreAdoptionExample.
Import TestWorlds.

(** A Friday before adoption: no usage record, and an activity record
    (here with two commits, the persona's baseline of 2 times 1.0). *)
Lemma pre_adoption_day_witness :
  let g := Script [] [] in
  let date : PyDate.date := 739800 in
  date < adoption
  /\ MockData.generate_copilot_metrics_for_day alex date adoption g = (Ret None, g)
  /\ field_of_run (MockData.generate_developer_activity_for_day alex date adoption g)
       "commit_count" = Some (VInt 2).
Proof.
  cbv zeta.
  assert (Hlt : 739800 < adoption) by (unfold adoption; lia).
  destruct (pre_adoption_day alex 739800 adoption (Script [] []) Hlt)
    as (Hnone & Hbody & _).
  split; [exact Hlt|]. split; [exact Hnone|].
  rewrite Hbody. vm_compute. reflexivity.
Defined.

End PreAdoptionExample.

(** ** Activity records *)

(** [a + b + c + d + e], left to right. *)
Definition py_sum5 (a b c d e : pyval) : result pyval :=
  obind (py_add a b) (fun t => obind (py_add t c) (fun t =>
  obind (py_add t d) (fun t => py_add t e))).

(** The window of the record starts [period_days] days before it ends. *)
Definition window_spans_period (r : record) : Prop :=
  exists since_date until_date : PyDate.date,
    r !! "report_start_day"%string = Some (VStr (PyDate.strftime since_date))
    /\ r !! "report_end_day"%string = Some (VStr (PyDate.strftime until_date))
    /\ r !! "period_days"%string
       = Some (VInt (PyDate.days_between until_date since_date)).

(** The window of the record is the single day [date], counted as one. *)
Definition window_is_day (date : PyDate.date) (r : record) : Prop :=
  r !! "report_start_day"%string = Some (VStr (PyDate.strftime date))
  /\ r !! "report_end_day"%string = Some (VStr (PyDate.strftime date))
  /\ r !! "period_days"%string = Some (VInt 1).

(** The two aggregates are the sums of the record's own counters. *)
Definition totals_exact (r : record) : Prop :=
  exists c po pm pr io pc total cra,
    r !! "commit_count"%string = Some c
    /\ r !! "prs_opened"%string = Some po
    /\ r !! "prs_merged"%string = Some pm
    /\ r !! "prs_reviewed"%string = Some pr
    /\ r !! "issues_opened"%string = Some io
    /\ r !! "pr_comments"%string = Some pc
    /\ r !! "total_contributions"%string = Some total
    /\ r !! "code_review_activity"%string = Some cra
    /\ py_sum5 c po pm pr io = Ok total
    /\ py_add pr pc = Ok cra.

(** The three rates are the rounded quotients of the record's own counters
    by its own [period_days]. *)
Definition rates_rounded (r : record) : Prop :=
  exists c po pr p qc qp qr,
    r !! "commit_count"%string = Some c
    /\ r !! "prs_opened"%string = Some po
    /\ r !! "prs_reviewed"%string = Some pr
    /\ r !! "period_days"%string = Some (VInt p)
    /\ py_truediv c p = Ok qc
    /\ py_truediv po p = Ok qp
    /\ py_truediv pr p = Ok qr
    /\ r !! "commits_per_day"%string = Some (VFloat (PyNum.round2 qc))
    /\ r !! "prs_per_day"%string = Some (VFloat (PyNum.round2 qp))
    /\ r !! "reviews_per_day"%string = Some (VFloat (PyNum.round2 qr)).

(** On integer counters the sums are integer sums. *)
Lemma totals_exact_int (r : record) c po pm pr io pc :
  totals_exact r ->
  r !! "commit_count"%string = Some (VInt c) ->
  r !! "prs_opened"%string = Some (VInt po) ->
  r !! "prs_merged"%string = Some (VInt pm) ->
  r !! "prs_reviewed"%string = Some (VInt pr) ->
  r !! "issues_opened"%string = Some (VInt io) ->
  r !! "pr_comments"%string = Some (VInt pc) ->
  r !! "total_contributions"%string = Some (VInt (c + po + pm + pr + io))
  /\ r !! "code_review_activity"%string = Some (VInt (pr + pc)).
Proof.
  intros (c' & po' & pm' & pr' & io' & pc' & total & cra
          & Hc & Hpo & Hpm & Hpr & Hio & Hpc & Ht & Hcra & Hsum & Hadd).
  intros Ec Epo Epm Epr Eio Epc.
  rewrite Ec in Hc. rewrite Epo in Hpo. rewrite Epm in Hpm.
  rewrite Epr in Hpr. rewrite Eio in Hio. rewrite Epc in Hpc.
  injection Hc as <-. injection Hpo as <-. injection Hpm as <-.
  injection Hpr as <-. injection Hio as <-. injection Hpc as <-.
  simpl in Hsum, Hadd. injection Hsum as <-. injection Hadd as <-.
  split; assumption.
Qed.

Section FetcherRecords.
Import Fetcher.
Context {W : Type} `{HostWorld W} `{Repr}.

Ltac inv_lift H :=
  apply lift_Ret_inv in H; destruct H as [H ->].

Lemma member_record_facts fuel self member since_date until_date days_back now s r s' :
  PyDate.sub_days until_date days_back = Ok since_date ->
  member_record fuel self member since_date until_date days_back now s = (Ret r, s') ->
  window_spans_period r /\ totals_exact r /\ rates_rounded r.
Proof.
  intros Hsince Hrun. unfold member_record in Hrun.
  inv_run Hrun.
  apply ret_Ret_inv in Hrun. destruct Hrun as [-> ->].
  inv_lift Hm2. inv_lift Hm3. inv_lift Hm4. inv_lift Hm5. inv_lift Hm6.
  inv_lift Hm7. inv_lift Hm8. inv_lift Hm9.
  unfold rate_per_day in Hm7, Hm8, Hm9.
  apply obind_Ok_inv in Hm7. destruct Hm7 as (qc & Hqc & [= <-]).
  apply obind_Ok_inv in Hm8. destruct Hm8 as (qp & Hqp & [= <-]).
  apply obind_Ok_inv in Hm9. destruct Hm9 as (qr & Hqr & [= <-]).
  assert (Hdays : PyDate.days_between until_date since_date = days_back).
  { unfold PyDate.sub_days in Hsince. unfold PyDate.days_between.
    destruct (999999999 <? Z.abs days_back); [discriminate|].
    destruct (PyDate.valid (until_date - days_back)); [|discriminate].
    injection Hsince as <-. lia. }
  split; [|split].
  - exists since_date, until_date. rewrite Hdays.
    repeat split; simplify_map_eq; reflexivity.
  - exists (cm_commit_count a), (pm_prs_opened a0), (pm_prs_merged a0),
      (pm_prs_reviewed a0), (im_issues_opened a1), (pm_pr_comments a0), a5, a6.
    repeat split; try (simplify_map_eq; reflexivity).
    + unfold py_sum5. rewrite Hm2. simpl. rewrite Hm3. simpl. rewrite Hm4. simpl.
      exact Hm5.
    + exact Hm6.
  - exists (cm_commit_count a), (pm_prs_opened a0), (pm_prs_reviewed a0), days_back,
      qc, qp, qr.
    repeat split; try assumption; simplify_map_eq; reflexivity.
Qed.

Lemma process_members_Forall (P : record -> Prop) fuel self since_date until_date
    days_back now :
  (forall member s r s',
      member_record fuel self member since_date until_date days_back now s
      = (Ret r, s') -> P r) ->
  forall members acc s L s',
    Forall P acc ->
    process_members fuel self members since_date until_date days_back now acc s
    = (Ret L, s') ->
    Forall P L.
Proof.
  intros Hrec members.
  induction members as [|member rest IH]; intros acc s L s' Hacc Hrun; simpl in Hrun.
  - injection Hrun as <- <-. exact Hacc.
  - unfold bind, try_except in Hrun.
    destruct (member_record fuel self member since_date until_date days_back now s)
      as [[r|e|] s1] eqn:Hone.
    + unfold ret in Hrun. eapply IH; [|exact Hrun].
      apply Forall_app. split; [exact Hacc|].
      constructor; [|constructor]. eapply Hrec, Hone.
    + unfold ret in Hrun. eapply IH; [exact Hacc | exact Hrun].
    + discriminate.
Qed.

(** Every record of a completed fetch spans its period, carries exact
    totals and rounded rates. *)
Lemma fetched_records_facts fuel self members days_back save_to_json s L s' :
  fetch_developer_activity_for_members fuel self members days_back save_to_json s
  = (Ret L, s') ->
  Forall (fun r => window_spans_period r /\ totals_exact r /\ rates_rounded r) L.
Proof.
  intros Hrun. unfold fetch_developer_activity_for_members in Hrun.
  apply bind_Ret_inv in Hrun. destruct Hrun as (ms & s0 & _ & Hrun).
  destruct ms as [|m ms].
  { injection Hrun as <- <-. constructor. }
  inv_run Hrun.
  apply ret_Ret_inv in Hrun. destruct Hrun as [-> ->].
  injection Hm as <- <-.
  inv_lift Hm0.
  eapply process_members_Forall; [| constructor | exact Hm2].
  intros member st r st' Hone.
  eapply member_record_facts; [exact Hm0 | exact Hone].
Qed.

End FetcherRecords.

Section GeneratedRecords.
Import MockData.
Context {G : Type} `{SimWorld G} `{Repr}.

Ltac inv_lift H :=
  apply lift_Ret_inv in H; destruct H as [H ->].

Lemma unless_day_off_returns date body (g : G) r g' :
  unless_day_off date body g = (Ret (Some r), g') ->
  exists g1, body g1 = (Ret (Some r), g').
Proof.
  unfold unless_day_off. intros Hrun.
  apply bind_Ret_inv in Hrun. destruct Hrun as ([|] & g0 & _ & Hrun).
  - discriminate.
  - apply bind_Ret_inv in Hrun. destruct Hrun as (x & g1 & _ & Hrun).
    destruct (PrimFloat.ltb x 0.05); [discriminate|].
    exists g1. exact Hrun.
Qed.

Lemma activity_record_facts modifier dev date (g : G) r g' :
  activity_record_with_modifier modifier dev date g = (Ret (Some r), g') ->
  window_is_day date r /\ totals_exact r /\ rates_rounded r
  /\ exists commits prs_opened prs_merged prs_reviewed issues_opened pr_comments,
      r !! "commit_count"%string = Some (VInt commits)
      /\ r !! "prs_opened"%string = Some (VInt prs_opened)
      /\ r !! "prs_merged"%string = Some (VInt prs_merged)
      /\ r !! "prs_reviewed"%string = Some (VInt prs_reviewed)
      /\ r !! "issues_opened"%string = Some (VInt issues_opened)
      /\ r !! "pr_comments"%string = Some (VInt pr_comments).
Proof.
  intros Hrun. unfold activity_record_with_modifier in Hrun.
  inv_run Hrun.
  apply ret_Some_inv in Hrun. destruct Hrun as [-> ->].
  inv_lift Hm18. inv_lift Hm19. inv_lift Hm20.
  unfold per_day in Hm18, Hm19, Hm20.
  apply obind_Ok_inv in Hm18. destruct Hm18 as (qc & Hqc & [= <-]).
  apply obind_Ok_inv in Hm19. destruct Hm19 as (qp & Hqp & [= <-]).
  apply obind_Ok_inv in Hm20. destruct Hm20 as (qr & Hqr & [= <-]).
  split; [|split; [|split]].
  - repeat split; simplify_map_eq; reflexivity.
  - do 8 eexists. repeat split; try (simplify_map_eq; reflexivity).
  - do 3 eexists. exists 1, qc, qp, qr.
    repeat split; try (simplify_map_eq; reflexivity); assumption.
  - do 6 eexists. repeat split; simplify_map_eq; reflexivity.
Qed.

Lemma generated_record_facts dev date copilot_adoption_date (g : G) r g' :
  generate_developer_activity_for_day dev date copilot_adoption_date g
  = (Ret (Some r), g') ->
  window_is_day date r /\ totals_exact r /\ rates_rounded r
  /\ exists commits prs_opened prs_merged prs_reviewed issues_opened pr_comments,
      r !! "commit_count"%string = Some (VInt commits)
      /\ r !! "prs_opened"%string = Some (VInt prs_opened)
      /\ r !! "prs_merged"%string = Some (VInt prs_merged)
      /\ r !! "prs_reviewed"%string = Some (VInt prs_reviewed)
      /\ r !! "issues_opened"%string = Some (VInt issues_opened)
      /\ r !! "pr_comments"%string = Some (VInt pr_comments).
Proof.
  intros Hrun. unfold generate_developer_activity_for_day in Hrun.
  apply unless_day_off_returns in Hrun. destruct Hrun as (g1 & Hrun).
  eapply activity_record_facts, Hrun.
Qed.

End GeneratedRecords.

(** How many records a run returned. *)
Definition returned_length {S A : Type} (run : outcome (list A) * S) : option nat :=
  match fst run with
  | Ret l => Some (length l)
  | _ => None
  end.

(** Whether a generator run returned a record. *)
Definition returned_record {S : Type} (run : outcome (option record) * S) : bool :=
  match fst run with
  | Ret (Some _) => true
  | _ => false
  end.

Section BothPipelines.
Import Fetcher MockData.
Context {W : Type} `{HostWorld W} {G : Type} `{SimWorld G} `{Repr}.

(** C2 (amended): in every record of the fetcher the window starts
    [period_days] days before it ends; in every record of the simulator
    the window is one single day ([report_start_day] and [report_end_day]
    are the same day) and [period_days] is 1. *)
Theorem record_window_and_period :
  (forall fuel self members days_back save_to_json (s : fstate W) L s',
      fetch_developer_activity_for_members fuel self members days_back save_to_json s
      = (Ret L, s') ->
      Forall window_spans_period L)
  /\ (forall dev date copilot_adoption_date (g : G) r g',
        generate_developer_activity_for_day dev date copilot_adoption_date g
        = (Ret (Some r), g') ->
        window_is_day date r).
Proof.
  split.
  - intros fuel self members days_back save_to_json s L s' Hrun.
    eapply Forall_impl; [eapply fetched_records_facts, Hrun|].
    intros r (Hwindow & _). exact Hwindow.
  - intros dev date adopt g r g' Hrun.
    eapply generated_record_facts, Hrun.
Qed.

(** C4: in every record of either pipeline [total_contributions] is
    [commit_count + prs_opened + prs_merged + prs_reviewed + issues_opened]
    and [code_review_activity] is [prs_reviewed + pr_comments], computed on
    the record's own fields; the simulator's counters are integers, so
    there the sums are integer sums. *)
Theorem record_totals_exact :
  (forall fuel self members days_back save_to_json (s : fstate W) L s',
      fetch_developer_activity_for_members fuel self members days_back save_to_json s
      = (Ret L, s') ->
      Forall totals_exact L)
  /\ (forall dev date copilot_adoption_date (g : G) r g',
        generate_developer_activity_for_day dev date copilot_adoption_date g
        = (Ret (Some r), g') ->
        totals_exact r
        /\ exists commits prs_opened prs_merged prs_reviewed issues_opened pr_comments,
            r !! "commit_count"%string = Some (VInt commits)
            /\ r !! "prs_opened"%string = Some (VInt prs_opened)
            /\ r !! "prs_merged"%string = Some (VInt prs_merged)
            /\ r !! "prs_reviewed"%string = Some (VInt prs_reviewed)
            /\ r !! "issues_opened"%string = Some (VInt issues_opened)
            /\ r !! "pr_comments"%string = Some (VInt pr_comments)
            /\ r !! "total_contributions"%string
               = Some (VInt (commits + prs_opened + prs_merged + prs_reviewed
                             + issues_opened))
            /\ r !! "code_review_activity"%string
               = Some (VInt (prs_reviewed + pr_comments))).
Proof.
  split.
  - intros fuel self members days_back save_to_json s L s' Hrun.
    eapply Forall_impl; [eapply fetched_records_facts, Hrun|].
    intros r (_ & Htotals & _). exact Htotals.
  - intros dev date adopt g r g' Hrun.
    apply generated_record_facts in Hrun.
    destruct Hrun as (_ & Htotals & _ & c & po & pm & pr & io & pc
                      & Hc & Hpo & Hpm & Hpr & Hio & Hpc).
    split; [exact Htotals|].
    exists c, po, pm, pr, io, pc.
    destruct (totals_exact_int r c po pm pr io pc Htotals Hc Hpo Hpm Hpr Hio Hpc)
      as [Ht Hcra].
    repeat split; assumption.
Qed.

(** C9: in every record of either pipeline (necessarily with a non-zero
    [period_days], so in particular when it is positive) [commits_per_day],
    [prs_per_day] and [reviews_per_day] are [round(x / period_days, 2)] for
    [x] the record's [commit_count], [prs_opened] and [prs_reviewed]. *)
Theorem record_rates_rounded :
  (forall fuel self members days_back save_to_json (s : fstate W) L s',
      fetch_developer_activity_for_members fuel self members days_back save_to_json s
      = (Ret L, s') ->
      Forall rates_rounded L)
  /\ (forall dev date copilot_adoption_date (g : G) r g',
        generate_developer_activity_for_day dev date copilot_adoption_date g
        = (Ret (Some r), g') ->
        rates_rounded r).
Proof.
  split.
  - intros fuel self members days_back save_to_json s L s' Hrun.
    eapply Forall_impl; [eapply fetched_records_facts, Hrun|].
    intros r (_ & _ & Hrates). exact Hrates.
  - intros dev date adopt g r g' Hrun.
    eapply generated_record_facts, Hrun.
Qed.

End BothPipelines.

Section PipelineExamples.
Import Fetcher MockData TestWorlds.

Definition example_fetch : outcome (list record) * fstate host :=
  fetch_developer_activity_for_members 5 acme (Some [VStr "alice"; VStr "bob"]) 28
    false (FState (Host (serve_counts 5) today None) []).

Definition example_activity : outcome (option record) * script :=
  generate_developer_activity_for_day alex 739800 adoption (Script [] []).

(** C2, as stated, fails for the simulator: the record of 2026-07-03 has
    both window ends on that day, zero days apart, and [period_days] 1. *)
Lemma simulated_window_is_zero_days_long :
  field_of_run example_activity "report_start_day" = Some (VStr "2026-07-03")
  /\ field_of_run example_activity "report_end_day" = Some (VStr "2026-07-03")
  /\ PyDate.days_between_strings "2026-07-03" "2026-07-03" = Some 0
  /\ field_of_run example_activity "period_days" = Some (VInt 1).
Proof.
  split; [|split; [|split]]; vm_compute; reflexivity.
Qed.

Ltac run_cases E :=
  match type of E with
  | ?run = _ =>
      first
        [ apply (f_equal returned_length) in E
        | apply (f_equal returned_record) in E ];
      vm_compute in E; discriminate
  end.

Ltac by_fetch_theorem thm E :=
  unfold example_fetch in E;
  exact (proj1 (thm host _ script _ _) _ _ _ _ _ _ _ _ E).
Ltac by_activity_theorem thm E :=
  unfold example_activity in E;
  exact (proj2 (thm host _ script _ _) _ _ _ _ _ _ E).

Lemma record_window_and_period_witness :
  returned_length example_fetch = Some 2%nat
  /\ match fst example_fetch with
     | Ret L => Forall window_spans_period L
     | _ => False
     end
  /\ match fst example_activity with
     | Ret (Some r) => window_is_day 739800 r
     | _ => False
     end.
Proof.
  split; [vm_compute; reflexivity|]. split.
  - destruct example_fetch as [[L|e|] s'] eqn:E; simpl;
      [by_fetch_theorem (@record_window_and_period) E | run_cases E | run_cases E].
  - destruct example_activity as [[[r|]|e|] g'] eqn:E; simpl;
      [by_activity_theorem (@record_window_and_period) E
      | run_cases E | run_cases E | run_cases E].
Defined.

Lemma record_totals_exact_witness :
  match fst example_fetch with
  | Ret L => Forall totals_exact L
  | _ => False
  end
  /\ match fst example_activity with
     | Ret (Some r) => totals_exact r
     | _ => False
     end
  /\ field_of_run example_activity "total_contributions" = Some (VInt 3).
Proof.
  split; [|split].
  - destruct example_fetch as [[L|e|] s'] eqn:E; simpl;
      [by_fetch_theorem (@record_totals_exact) E | run_cases E | run_cases E].
  - destruct example_activity as [[[r|]|e|] g'] eqn:E; simpl;
      [ unfold example_activity in E;
        exact (proj1 (proj2 (@record_totals_exact host _ script _ _) _ _ _ _ _ _ E))
      | run_cases E | run_cases E | run_cases E].
  - vm_compute. reflexivity.
Defined.

Lemma record_rates_rounded_witness :
  match fst example_fetch with
  | Ret L => Forall rates_rounded L
  | _ => False
  end
  /\ match fst example_activity with
     | Ret (Some r) => rates_rounded r
     | _ => False
     end
  /\ match fst example_fetch with
     | Ret (r :: _) => r !! "commits_per_day"%string
     | _ => None
     end = Some (VFloat 0.18).
Proof.
  split; [|split].
  - destruct example_fetch as [[L|e|] s'] eqn:E; simpl;
      [by_fetch_theorem (@record_rates_rounded) E | run_cases E | run_cases E].
  - destruct example_activity as [[[r|]|e|] g'] eqn:E; simpl;
      [by_activity_theorem (@record_rates_rounded) E
      | run_cases E | run_cases E | run_cases E].
  - vm_compute. reflexivity.
Defined.

End PipelineExamples.

(** ** Paging through a listing *)

Definition is_dict (v : pyval) : bool :=
  match v with VDict _ => true | _ => false end.

(** [m.get(field)] on an object of a page. *)
Definition field_of (field : string) (m : pyval) : pyval :=
  match m with
  | VDict kv => default VNone (assoc_get field kv)
  | _ => VNone
  end.

(** The values a page contributes: the non-empty [field]s, in order. *)
Definition fields_of (field : string) (items : list pyval) : list pyval :=
  List.filter truthy (map (field_of field) items).

(** A response that ends the paging with nothing to add: a status other
    than 200, a body that does not decode, or a failed request. *)
Definition is_error (resp : Fetcher.response) : bool :=
  match resp with
  | Fetcher.Response status_code json =>
      negb (status_code =? 200) || match json with None => true | Some _ => false end
  | Fetcher.RequestFailed => true
  end.

Definition ceil_div (a b : Z) : Z := (a + b - 1) / b.

Section Paging.
Import Fetcher.
Context {W : Type} `{HostWorld W}.
Variable self : DeveloperActivityFetcher.
Variables resource suffix field : string.
Variable per_page : Z.
Hypothesis per_page_pos : 0 < per_page.

Definition page_url (page : Z) : string :=
  listing_url self resource suffix page per_page.

(** The URLs of [n] successive pages from [first] on. *)
Definition page_urls (first : Z) (n : nat) : list string :=
  map (fun i => page_url (first + Z.of_nat i)) (seq 0 n).

(** From world [w], the pages [page], [page + 1], ... of the listing come
    back as the given arrays of objects, each at least [per_page] long,
    leaving the world [w']. *)
Inductive serves_pages : W -> Z -> list (list pyval) -> W -> Prop :=
| serves_none w page : serves_pages w page [] w
| serves_next w page items pages w1 w2 :
    requests_get (page_url page) (headers self) w
    = (Response 200 (Some (VList items)), w1) ->
    forallb is_dict items = true ->
    per_page <= Z.of_nat (length items) ->
    serves_pages w1 (page + 1) pages w2 ->
    serves_pages w page (items :: pages) w2.

Lemma collect_field_objects items :
  forallb is_dict items = true ->
  collect_field field items = Ok (fields_of field items).
Proof.
  induction items as [|m items IH]; simpl; intros Hall.
  - reflexivity.
  - apply andb_true_iff in Hall. destruct Hall as [Hm Hall].
    destruct m; try discriminate. simpl.
    rewrite (IH Hall). simpl. unfold fields_of. simpl.
    destruct (truthy (default VNone (assoc_get field kv))); reflexivity.
Qed.

Lemma fields_of_app xs ys :
  fields_of field (xs ++ ys) = fields_of field xs ++ fields_of field ys.
Proof. unfold fields_of. rewrite map_app. apply List.filter_app. Qed.

(** One request of the loop. *)
Lemma make_rest_request_run url dflt w log resp w' :
  requests_get url (headers self) w = (resp, w') ->
  _make_rest_request self url (VList dflt) (FState w log)
  = (Ret (match resp with
          | Response status_code (Some v) =>
              if status_code =? 200 then v else VList dflt
          | _ => VList dflt
          end),
     FState w' (log ++ [url])).
Proof.
  intros Hget. unfold _make_rest_request. simpl. rewrite Hget.
  destruct resp as [code [v|]|]; simpl; try reflexivity.
  - destruct (code =? 200); reflexivity.
  - destruct (code =? 200); reflexivity.
Qed.

Lemma paged_listing_continues fuel acc page w log items w' :
  requests_get (page_url page) (headers self) w
  = (Response 200 (Some (VList items)), w') ->
  forallb is_dict items = true ->
  per_page <= Z.of_nat (length items) ->
  paged_listing (S fuel) self resource suffix field per_page acc page (FState w log)
  = paged_listing fuel self resource suffix field per_page
      (acc ++ fields_of field items) (page + 1) (FState w' (log ++ [page_url page])).
Proof.
  intros Hget Hdicts Hfull. simpl. unfold bind at 1.
  fold (page_url page).
  rewrite (make_rest_request_run _ [] _ _ _ _ Hget). simpl.
  destruct items as [|m items]; [simpl in Hfull; lia|].
  cbn [truthy negb]. unfold bind at 1. unfold page_field, py_iter. cbn [obind].
  rewrite (collect_field_objects _ Hdicts). cbn [lift].
  unfold bind at 1. cbn [py_len lift].
  destruct (Z.ltb_spec (Z.of_nat (length (m :: items))) per_page); [lia|].
  reflexivity.
Qed.

Lemma paged_listing_last_page fuel acc page w log items w' :
  requests_get (page_url page) (headers self) w
  = (Response 200 (Some (VList items)), w') ->
  forallb is_dict items = true ->
  Z.of_nat (length items) < per_page ->
  paged_listing (S fuel) self resource suffix field per_page acc page (FState w log)
  = (Ret (acc ++ fields_of field items), FState w' (log ++ [page_url page])).
Proof.
  intros Hget Hdicts Hshort. simpl. unfold bind at 1.
  fold (page_url page).
  rewrite (make_rest_request_run _ [] _ _ _ _ Hget). simpl.
  destruct items as [|m items].
  - simpl. unfold ret. rewrite app_nil_r. reflexivity.
  - cbn [truthy negb]. unfold bind at 1. unfold page_field, py_iter. cbn [obind].
    rewrite (collect_field_objects _ Hdicts). cbn [lift].
    unfold bind at 1. cbn [py_len lift].
    destruct (Z.ltb_spec (Z.of_nat (length (m :: items))) per_page); [|lia].
    reflexivity.
Qed.

Lemma paged_listing_error fuel acc page w log resp w' :
  requests_get (page_url page) (headers self) w = (resp, w') ->
  is_error resp = true ->
  paged_listing (S fuel) self resource suffix field per_page acc page (FState w log)
  = (Ret acc, FState w' (log ++ [page_url page])).
Proof.
  intros Hget Herr. simpl. unfold bind at 1.
  fold (page_url page).
  rewrite (make_rest_request_run _ [] _ _ _ _ Hget).
  destruct resp as [code [v|]|]; simpl in *; try reflexivity.
  - rewrite orb_false_r in Herr. apply negb_true_iff in Herr. rewrite Herr.
    reflexivity.
Qed.

Lemma page_urls_succ first n :
  page_urls first (S n) = page_url first :: page_urls (first + 1) n.
Proof.
  unfold page_urls. simpl. rewrite Z.add_0_r. f_equal.
  rewrite <- seq_shift, map_map. apply map_ext. intros i. f_equal. lia.
Qed.

Lemma page_urls_last first n :
  page_urls first (S n) = page_urls first n ++ [page_url (first + Z.of_nat n)].
Proof.
  unfold page_urls. rewrite seq_S, map_app. reflexivity.
Qed.

(** The loop runs through a prefix of full pages. *)
Lemma paged_listing_through_pages w page pages w' :
  serves_pages w page pages w' ->
  forall fuel acc log,
    paged_listing (length pages + fuel) self resource suffix field per_page acc page
      (FState w log)
    = paged_listing fuel self resource suffix field per_page
        (acc ++ fields_of field (concat pages)) (page + Z.of_nat (length pages))
        (FState w' (log ++ page_urls page (length pages))).
Proof.
  induction 1 as [w page | w page items pages w1 w2 Hget Hdicts Hfull _ IH];
    intros fuel acc log.
  - simpl. rewrite !app_nil_r, Z.add_0_r. reflexivity.
  - cbn [length Nat.add concat].
    rewrite (paged_listing_continues _ _ _ _ _ _ _ Hget Hdicts Hfull).
    rewrite IH. rewrite fields_of_app, page_urls_succ.
    rewrite <- !app_assoc. simpl.
    replace (page + 1 + Z.of_nat (length pages))
      with (page + Z.of_nat (S (length pages))) by lia.
    reflexivity.
Qed.

End Paging.

Section MemberPaging.
Import Fetcher.
Context {W : Type} `{HostWorld W}.

(** C5 (amended): when the member listing serves full pages of 100
    objects and then one shorter page (possibly empty),
    [get_organization_members] returns, given fuel for one request more
    than there are full pages; its result is the logins of all the pages
    in order; it logs one request per page, that is
    [total / 100 + 1] requests, which is [ceil(total / 100)] exactly when
    the last page is not empty. *)
Theorem member_paging_collects_all_pages (self : DeveloperActivityFetcher)
    (pages : list (list pyval)) (last : list pyval) (w w1 w2 : W)
    (log : list string) (fuel : nat) :
  serves_pages self "members" "" 100 w 1 pages w1 ->
  Forall (fun items => length items = 100%nat) pages ->
  requests_get (page_url self "members" "" 100 (1 + Z.of_nat (length pages)))
    (headers self) w1
  = (Response 200 (Some (VList last)), w2) ->
  forallb is_dict last = true ->
  (length last < 100)%nat ->
  (length pages < fuel)%nat ->
  let total := Z.of_nat (length (concat pages ++ last)) in
  let requests := page_urls self "members" "" 100 1 (S (length pages)) in
  get_organization_members fuel self (FState w log)
  = (Ret (fields_of "login" (concat pages ++ last)), FState w2 (log ++ requests))
  /\ Z.of_nat (length requests) = total / 100 + 1
  /\ (last <> [] -> Z.of_nat (length requests) = ceil_div total 100).
Proof.
  intros Hpages Hsizes Hlast Hdicts Hshort Hfuel total requests.
  assert (Htotal : total = 100 * Z.of_nat (length pages) + Z.of_nat (length last)).
  { unfold total. rewrite length_app, Nat2Z.inj_add. f_equal.
    clear -Hsizes. induction Hsizes as [|items pages Hlen _ IH]; simpl.
    - reflexivity.
    - rewrite length_app, Hlen. lia. }
  assert (Hcount : Z.of_nat (length requests) = Z.of_nat (length pages) + 1).
  { unfold requests, page_urls. rewrite length_map, length_seq. lia. }
  split; [|split].
  - unfold get_organization_members.
    destruct fuel as [|fuel]; [lia|].
    replace (S fuel) with (length pages + S (fuel - length pages))%nat by lia.
    rewrite (paged_listing_through_pages self "members" "" "login" 100 ltac:(lia)
               _ _ _ _ Hpages).
    rewrite (paged_listing_last_page self "members" "" "login" 100 _ _ _ _ _ _ _
               Hlast Hdicts ltac:(lia)).
    unfold requests. rewrite page_urls_last, fields_of_app.
    rewrite !app_assoc. reflexivity.
  - rewrite Hcount, Htotal.
    rewrite Z.mul_comm, Z.div_add_l by lia.
    rewrite Z.div_small by lia. lia.
  - intros Hne. rewrite Hcount, Htotal. unfold ceil_div.
    assert (0 < Z.of_nat (length last)) by (destruct last; [congruence | simpl; lia]).
    replace (100 * Z.of_nat (length pages) + Z.of_nat (length last) + 100 - 1)
      with (Z.of_nat (length pages) * 100 + (Z.of_nat (length last) + 99)) by lia.
    rewrite Z.div_add_l by lia.
    replace ((Z.of_nat (length last) + 99) / 100) with 1; [lia|].
    apply Z.div_unique with (r := Z.of_nat (length last) - 1); lia.
Qed.

(** C6: if, after any number of full pages, a page request of the member
    (resp. repository) listing comes back as an error, the enumeration
    stops there and returns the logins (resp. names) of the pages before
    it; nothing is raised and nothing is discarded. *)
Theorem listing_error_keeps_earlier_pages (self : DeveloperActivityFetcher)
    (pages : list (list pyval)) (resp : response) (w w1 w2 : W)
    (log : list string) (fuel : nat) :
  is_error resp = true ->
  (length pages < fuel)%nat ->
  (serves_pages self "members" "" 100 w 1 pages w1 ->
   requests_get (page_url self "members" "" 100 (1 + Z.of_nat (length pages)))
     (headers self) w1 = (resp, w2) ->
   get_organization_members fuel self (FState w log)
   = (Ret (fields_of "login" (concat pages)),
      FState w2 (log ++ page_urls self "members" "" 100 1 (S (length pages)))))
  /\ (serves_pages self "repos" "&type=all" 100 w 1 pages w1 ->
      requests_get (page_url self "repos" "&type=all" 100 (1 + Z.of_nat (length pages)))
        (headers self) w1 = (resp, w2) ->
      get_organization_repos fuel self (FState w log)
      = (Ret (fields_of "name" (concat pages)),
         FState w2
           (log ++ page_urls self "repos" "&type=all" 100 1 (S (length pages))))).
Proof.
  intros Herr Hfuel.
  assert (Hgen : forall resource suffix field,
             serves_pages self resource suffix 100 w 1 pages w1 ->
             requests_get (page_url self resource suffix 100
                             (1 + Z.of_nat (length pages))) (headers self) w1
             = (resp, w2) ->
             paged_listing fuel self resource suffix field 100 [] 1 (FState w log)
             = (Ret (fields_of field (concat pages)),
                FState w2 (log ++ page_urls self resource suffix 100 1
                                    (S (length pages))))).
  { intros resource suffix field Hpages Hget.
    destruct fuel as [|fuel]; [lia|].
    replace (S fuel) with (length pages + S (fuel - length pages))%nat by lia.
    rewrite (paged_listing_through_pages self resource suffix field 100 ltac:(lia)
               _ _ _ _ Hpages).
    rewrite (paged_listing_error self resource suffix field 100 _ _ _ _ _ _ _
               Hget Herr).
    rewrite page_urls_last, !app_assoc. reflexivity. }
  split; intros Hpages Hget.
  - apply (Hgen "members" "" "login" Hpages Hget)%string.
  - apply (Hgen "repos" "&type=all" "name" Hpages Hget)%string.
Qed.

End MemberPaging.

Section MemberPagingExamples.
Import Fetcher TestWorlds.

Definition page1 : list pyval := members_from 1 100.
Definition page2 : list pyval := members_from 101 100.
Definition page3 : list pyval := members_from 201 37.

Definition three_pages : host := Host (serve_member_pages [page1; page2; page3]) today None.
Definition exactly_one_page : host := Host (serve_member_pages [page1; []]) today None.
Definition short_middle_page : host :=
  Host (serve_member_pages [page1; members_from 101 50; members_from 151 37]) today None.
Definition failing_second_page : host :=
  Host (serve_pages_then_fail [page1]) today None.

(** C5, as stated, fails in two ways.  With 100 members the pages have
    sizes 100 and 0: two requests are made where [ceil(100 / 100)] is 1.
    With pages of sizes 100, 50 and 37 the loop stops at the page of 50:
    150 logins, not the 187 of all pages. *)
Lemma paging_counts_differ_from_claim :
  (map length [page1; []] = [100; 0]%nat
   /\ returned_length (get_organization_members 10 acme (FState exactly_one_page []))
      = Some 100%nat
   /\ length (request_log
                (snd (get_organization_members 10 acme (FState exactly_one_page []))))
      = 2%nat
   /\ ceil_div 100 100 = 1)
  /\ (map length [page1; members_from 101 50; members_from 151 37] = [100; 50; 37]%nat
      /\ returned_length
           (get_organization_members 10 acme (FState short_middle_page []))
         = Some 150%nat
      /\ length (concat [page1; members_from 101 50; members_from 151 37]) = 187%nat).
Proof.
  split; [split; [|split; [|split]] | split; [|split]]; vm_compute; reflexivity.
Qed.

Ltac serve_page :=
  eapply serves_next;
  [ vm_compute; reflexivity
  | vm_compute; reflexivity
  | vm_compute; discriminate
  | ].

(** Two pages of 100 members and one of 37: 237 logins, 3 requests. *)
Lemma member_paging_collects_all_pages_witness :
  returned_length (get_organization_members 10 acme (FState three_pages []))
  = Some 237%nat
  /\ length (request_log (snd (get_organization_members 10 acme (FState three_pages []))))
     = 3%nat
  /\ ceil_div 237 100 = 3.
Proof.
  assert (Hserves : serves_pages acme "members" "" 100 three_pages 1 [page1; page2]
                      three_pages).
  { serve_page. serve_page. apply serves_none. }
  assert (Hsizes : Forall (fun items : list pyval => length items = 100%nat)
                     [page1; page2]).
  { repeat constructor. }
  assert (Hlast : requests_get
                    (page_url acme "members" "" 100
                       (1 + Z.of_nat (length [page1; page2])))
                    (headers acme) three_pages
                  = (Response 200 (Some (VList page3)), three_pages)).
  { vm_compute. reflexivity. }
  assert (Hdicts : forallb is_dict page3 = true) by (vm_compute; reflexivity).
  assert (Hshort : (length page3 < 100)%nat) by (vm_compute; lia).
  assert (Hfuel : (length [page1; page2] < 10)%nat) by (simpl; lia).
  destruct (member_paging_collects_all_pages acme [page1; page2] page3
              three_pages three_pages three_pages [] 10
              Hserves Hsizes Hlast Hdicts Hshort Hfuel) as (Hrun & _ & _).
  rewrite Hrun.
  split; [|split]; vm_compute; reflexivity.
Defined.

(** One full page, then a 503: the 100 logins of the first page come
    back. *)
Lemma listing_error_keeps_earlier_pages_witness :
  returned_length (get_organization_members 10 acme (FState failing_second_page []))
  = Some 100%nat.
Proof.
  assert (Hserves : serves_pages acme "members" "" 100 failing_second_page 1 [page1]
                      failing_second_page).
  { serve_page. apply serves_none. }
  assert (Hget : requests_get
                   (page_url acme "members" "" 100 (1 + Z.of_nat (length [page1])))
                   (headers acme) failing_second_page
                 = (Response 503 None, failing_second_page)).
  { vm_compute. reflexivity. }
  assert (Herr : is_error (Response 503 None) = true) by reflexivity.
  assert (Hfuel : (length [page1] < 10)%nat) by (simpl; lia).
  destruct (listing_error_keeps_earlier_pages acme [page1] (Response 503 None)
              failing_second_page failing_second_page failing_second_page [] 10
              Herr Hfuel) as (Hmembers & _).
  rewrite (Hmembers Hserves Hget).
  vm_compute. reflexivity.
Defined.

End MemberPagingExamples.

(** ** The entry point of the fetcher *)

(** A computation that cannot run out of fuel. *)
Definition finishes {S A : Type} (m : M S A) : Prop :=
  forall s, fst (m s) <> Timeout.

Lemma finishes_ret {S A} (a : A) : finishes (ret a : M S A).
Proof. intros s. discriminate. Qed.

Lemma finishes_lift {S A} (o : result A) : finishes (lift o : M S A).
Proof. intros s. unfold lift. destruct o; discriminate. Qed.

Lemma finishes_bind {S A B} (m : M S A) (k : A -> M S B) :
  finishes m -> (forall a, finishes (k a)) -> finishes (bind m k).
Proof.
  intros Hm Hk s. unfold bind. specialize (Hm s).
  destruct (m s) as [[a|e|] s1]; simpl in *.
  - apply Hk.
  - discriminate.
  - congruence.
Qed.

Section EntryPoint.
Import Fetcher.
Context {W : Type} `{HostWorld W} `{Repr}.
Variable self : DeveloperActivityFetcher.

(** No listing has a full page beyond page [N]: the organisation is
    finite. *)
Definition never_full_after (N : Z) : Prop :=
  forall resource suffix page (w : W) v n,
    N < page ->
    fst (requests_get (listing_url self resource suffix page 100) (headers self) w)
    = Response 200 (Some v) ->
    py_len v = Ok n ->
    n < 100.

(** Every page of the member listing that is served is empty or an array
    of objects. *)
Definition member_listing_well_formed : Prop :=
  forall page (w : W) v,
    fst (requests_get (listing_url self "members" "" page 100) (headers self) w)
    = Response 200 (Some v) ->
    truthy v = false
    \/ exists items, v = VList items /\ forallb is_dict items = true.

Lemma make_rest_request_returns url dflt (s : fstate W) :
  exists v s', _make_rest_request self url dflt s = (Ret v, s').
Proof.
  unfold _make_rest_request.
  destruct (requests_get url (headers self) (world s)) as [resp w] eqn:Hget.
  simpl. rewrite Hget.
  destruct resp as [code [v|]|]; simpl;
    try destruct (code =? 200); simpl; eauto.
Qed.

Lemma make_rest_request_finishes url dflt :
  finishes (_make_rest_request self url dflt).
Proof.
  intros s. destruct (make_rest_request_returns url dflt s) as (v & s' & ->).
  discriminate.
Qed.

Lemma paged_listing_finishes N resource suffix field :
  never_full_after N ->
  forall fuel page acc,
    Z.max 0 (N + 1 - page) < Z.of_nat fuel ->
    finishes (paged_listing fuel self resource suffix field 100 acc page).
Proof.
  intros Hfinite fuel.
  induction fuel as [|fuel IH]; intros page acc Hfuel [w log]; [lia|].
  simpl. unfold bind at 1.
  destruct (requests_get (listing_url self resource suffix page 100) (headers self) w)
    as [resp w'] eqn:Hget.
  rewrite (make_rest_request_run self _ [] _ _ _ _ Hget).
  set (v := match resp with
            | Response code (Some v) => if code =? 200 then v else VList []
            | _ => VList []
            end).
  destruct (truthy v) eqn:Htruthy; simpl; [|discriminate].
  unfold bind at 1. destruct (page_field field v) as [found|e]; simpl; [|discriminate].
  unfold bind at 1. destruct (py_len v) as [n|e] eqn:Hlen; simpl; [|discriminate].
  destruct (Z.ltb_spec n 100); [discriminate|].
  apply IH.
  destruct (Z.le_gt_cases page N) as [Hle|Hgt]; [lia|].
  exfalso.
  destruct resp as [code [v0|]|]; subst v; simpl in Htruthy; try discriminate.
  destruct (Z.eqb_spec code 200) as [->|]; [|discriminate].
  assert (n < 100); [|lia].
  eapply (Hfinite resource suffix page w v0 n); try assumption.
  rewrite Hget. reflexivity.
Qed.

Lemma member_listing_returns N fuel (s : fstate W) :
  never_full_after N ->
  member_listing_well_formed ->
  0 <= N < Z.of_nat fuel ->
  exists members s', get_organization_members fuel self s = (Ret members, s').
Proof.
  intros Hfinite Hwf Hfuel. unfold get_organization_members.
  assert (Hgen : forall fuel page acc (s : fstate W),
             Z.max 0 (N + 1 - page) < Z.of_nat fuel ->
             exists members s',
               paged_listing fuel self "members" "" "login" 100 acc page s
               = (Ret members, s')).
  { clear fuel Hfuel s. intros fuel.
    induction fuel as [|fuel IH]; intros page acc [w log] Hfuel; [lia|].
    simpl. unfold bind at 1.
    destruct (requests_get (listing_url self "members" "" page 100) (headers self) w)
      as [resp w'] eqn:Hget.
    rewrite (make_rest_request_run self _ [] _ _ _ _ Hget).
    destruct resp as [code [v|]|]; simpl; eauto.
    destruct (Z.eqb_spec code 200) as [->|]; simpl; eauto.
    destruct (Hwf page w v) as [Hfalsy | (items & -> & Hdicts)].
    { rewrite Hget. reflexivity. }
    { rewrite Hfalsy. simpl. eauto. }
    destruct items as [|m items]; simpl; eauto.
    unfold bind at 1. unfold page_field, py_iter. cbn [obind].
    rewrite (collect_field_objects "login" _ Hdicts). cbn [lift].
    unfold bind at 1. cbn [py_len lift].
    match goal with
    | |- context [?a <? 100] => destruct (Z.ltb_spec a 100) as [Hlt|Hge]
    end; [unfold ret; eauto|].
    apply IH.
    destruct (Z.le_gt_cases page N) as [Hle|Hgt]; [lia|].
    exfalso.
    assert (Z.of_nat (length (m :: items)) < 100); [|simpl length in *; lia].
    eapply (Hfinite "members" ""%string page w (VList (m :: items))); try assumption.
    - rewrite Hget. reflexivity.
    - reflexivity. }
  apply Hgen. lia.
Qed.

Lemma search_count_finishes query : finishes (search_count self query).
Proof.
  unfold search_count. apply finishes_bind.
  - apply make_rest_request_finishes.
  - intros data. apply finishes_lift.
Qed.

Lemma member_record_finishes N fuel member since_date until_date days_back now :
  never_full_after N ->
  0 <= N < Z.of_nat fuel ->
  finishes (member_record fuel self member since_date until_date days_back now).
Proof.
  intros Hfinite Hfuel. unfold member_record.
  apply finishes_bind.
  { unfold get_user_commits. apply finishes_bind.
    - unfold get_organization_repos.
      apply (paged_listing_finishes N); [exact Hfinite | lia].
    - intros _ s.
      destruct (requests_get _ _ (world s)) as [resp w].
      destruct (match resp with
                | Response status_code (Some data) =>
                    if status_code =? 200 then parse_commit_search data else (VInt 0, [])
                | _ => (VInt 0, [])
                end) as [total repos].
      discriminate. }
  intros cm. apply finishes_bind.
  { unfold get_user_pull_requests.
    repeat (apply finishes_bind; [apply search_count_finishes | intros ?]).
    apply finishes_ret. }
  intros pm. apply finishes_bind.
  { unfold get_user_issues.
    repeat (apply finishes_bind; [apply search_count_finishes | intros ?]).
    apply finishes_ret. }
  intros im.
  repeat (apply finishes_bind; [apply finishes_lift | intros ?]).
  apply finishes_ret.
Qed.

(** The loop over the members never raises: it returns whenever the
    processing of each member finishes. *)
Lemma process_members_returns fuel since_date until_date days_back now :
  (forall member,
      finishes (member_record fuel self member since_date until_date days_back now)) ->
  forall members acc (s : fstate W),
    exists L s',
      process_members fuel self members since_date until_date days_back now acc s
      = (Ret L, s').
Proof.
  intros Hfin members.
  induction members as [|member rest IH]; intros acc s; simpl.
  - unfold ret. eauto.
  - unfold bind at 1. unfold try_except, bind at 1.
    specialize (Hfin member s).
    destruct (member_record fuel self member since_date until_date days_back now s)
      as [[r|e|] s1]; simpl in *.
    + apply IH.
    + apply IH.
    + congruence.
Qed.

Lemma process_members_app fuel since_date until_date days_back now before after acc
    (s : fstate W) :
  process_members fuel self (before ++ after) since_date until_date days_back now acc s
  = bind (process_members fuel self before since_date until_date days_back now acc)
         (fun acc1 =>
            process_members fuel self after since_date until_date days_back now acc1)
         s.
Proof.
  revert acc s. induction before as [|member rest IH]; intros acc s; simpl.
  - reflexivity.
  - unfold bind at 1 3. unfold bind at 2.
    destruct (try_except _ _ s) as [[r|e|] s1]; simpl.
    + apply IH.
    + reflexivity.
    + reflexivity.
Qed.

End EntryPoint.

Section EntryPointTheorem.
Import Fetcher.
Context {W : Type} `{HostWorld W} `{Repr}.

(** C7 (amended): [fetch_developer_activity_for_members] returns a list,
    raising nothing, when the listings are finite (fuel for them), the
    start of the window [now - days_back] is a representable date, the
    member listing, if it is consulted, serves arrays of objects, and
    saving, if requested, does not raise.  In the loop over the members an
    exception while one member is processed skips that member only: the
    loop goes on with the members after it, from the records and the
    state it had reached. *)
Theorem fetch_returns_and_skips_failed_members (self : DeveloperActivityFetcher)
    (N : Z) (fuel : nat) (members : option (list pyval)) (days_back : Z)
    (save_to_json : bool) (s : fstate W) :
  never_full_after self N ->
  0 <= N < Z.of_nat fuel ->
  (members = None -> member_listing_well_formed self) ->
  (forall w : W, exists since_date,
      PyDate.sub_days (now_date w) days_back = Ok since_date) ->
  (save_to_json = true ->
   forall records name (w : W), fst (dict_save_to_json_file records name w) = Ok tt) ->
  (exists L s',
      fetch_developer_activity_for_members fuel self members days_back save_to_json s
      = (Ret L, s'))
  /\ (forall since_date until_date now before member after acc s0 acc1 s1 e s2,
        process_members fuel self before since_date until_date days_back now acc s0
        = (Ret acc1, s1) ->
        member_record fuel self member since_date until_date days_back now s1
        = (Raise e, s2) ->
        process_members fuel self (before ++ member :: after) since_date until_date
          days_back now acc s0
        = process_members fuel self after since_date until_date days_back now acc1 s2).
Proof.
  intros Hfinite Hfuel Hwf Hdate Hsave. split.
  - unfold fetch_developer_activity_for_members.
    assert (Hmembers : exists ms s0,
               match members with
               | Some members => ret members
               | None => get_organization_members fuel self
               end s = (Ret ms, s0)).
    { destruct members as [ms|].
      - exists ms, s. reflexivity.
      - apply (member_listing_returns self N); auto. }
    destruct Hmembers as (ms & s0 & Hms).
    unfold bind at 1. rewrite Hms.
    destruct ms as [|m ms]; [unfold ret; eauto|].
    unfold bind at 1. cbn beta iota.
    destruct (Hdate (world s0)) as (since_date & Hsince).
    unfold bind at 1. rewrite Hsince. cbn [lift].
    unfold bind at 1. cbn beta iota.
    unfold bind at 1.
    destruct (process_members_returns self fuel since_date (now_date (world s0))
                days_back (current_time (world s0))
                (fun member => member_record_finishes self N fuel member _ _ _ _
                                 Hfinite Hfuel)
                (m :: ms) [] s0) as (L & s1 & Hloop).
    rewrite Hloop.
    unfold bind at 1.
    destruct save_to_json; [destruct L as [|r L]|]; try (unfold ret; eauto).
    specialize (Hsave eq_refl (r :: L)
                  (organization_slug self +:+ "_developer_activity")%string (world s1)).
    destruct (dict_save_to_json_file (r :: L) _ (world s1)) as [saved w].
    simpl in Hsave. subst saved. simpl. unfold ret. eauto.
  - intros since_date until_date now before member after acc s0 acc1 s1 e s2
      Hbefore Hfails.
    rewrite process_members_app. unfold bind at 1. rewrite Hbefore.
    simpl. unfold bind at 1. unfold try_except, bind at 1. rewrite Hfails.
    reflexivity.
Qed.

End EntryPointTheorem.

Section EntryPointExamples.
Import Fetcher TestWorlds.

(** C7, as stated, fails.  A window of 800000 days starts before year 1:
    the date arithmetic, which is outside every [try], raises.  And with
    [members = None], a member page that holds something other than
    objects makes [get_organization_members] raise. *)
Lemma fetch_can_raise :
  fst (fetch_developer_activity_for_members 5 acme (Some [VStr "alice"]) 800000 false
         (FState (Host (serve_counts 5) today None) []))
  = Raise OverflowError
  /\ fst (fetch_developer_activity_for_members 5 acme None 28 false
            (FState (Host (fun _ => Response 200 (Some (VList [VInt 1]))) today None) []))
     = Raise AttributeError.
Proof. split; vm_compute; reflexivity. Qed.

(** In a batch of bob and alice on a host that breaks bob's queries, bob
    is skipped and alice's record is returned. *)
Example failed_member_is_skipped :
  match fst (fetch_developer_activity_for_members 5 acme
               (Some [VStr "bob"; VStr "alice"]) 28 false
               (FState (Host serve_broken_for_bob today None) [])) with
  | Ret [r] => r !! "user_login"%string
  | _ => None
  end = Some (VStr "alice").
Proof. vm_compute. reflexivity. Qed.

Lemma small_org_never_full : never_full_after (W := small_org) acme 0.
Proof.
  intros resource suffix page w v n _ Hget Hlen. simpl in Hget.
  unfold serve_counts in Hget.
  destruct (MockData.contains "/search/" _);
    injection Hget as <-; simpl in Hlen; injection Hlen as <-; lia.
Qed.

Lemma fetch_returns_and_skips_failed_members_witness :
  exists L s',
    fetch_developer_activity_for_members 5 acme (Some [VStr "alice"; VStr "bob"]) 28
      true (FState SmallOrg [])
    = (Ret L, s').
Proof.
  apply (fetch_returns_and_skips_failed_members acme 0 5
           (Some [VStr "alice"; VStr "bob"]) 28 true (FState SmallOrg [])).
  - exact small_org_never_full.
  - lia.
  - discriminate.
  - intros w. eexists. vm_compute. reflexivity.
  - intros _ records name w. reflexivity.
Defined.

End EntryPointExamples.
